(** * SAMUDRAKSHA: hazard text analysis, hotspot aggregation and risk scoring

    A shallow embedding of the algorithmic core of [server.js] (the
    [NLPEngine] class and [generateHotspots]) and of [ocean-api.js]
    ([OceanMonitorAPI.assessRisk]), with the properties the specification
    states about them.

    Conventions of the embedding:
    - a JavaScript number is an IEEE-754 binary64 value, [float];
    - a JavaScript string is a [string] whose characters are code units in
      the range 0..255;
    - an array is a [list]; an object used as a dictionary is an association
      list in insertion order (the order [Object.entries] enumerates
      non-index keys in);
    - a call that can throw returns a [Completion]. *)

From Stdlib Require Import ZArith List String Ascii Bool Lia.
From Stdlib Require Import Floats DecimalString DecimalN.
Import ListNotations.

Set Warnings "-inexact-float".

Open Scope list_scope.

(** ** JavaScript built-ins used by the sources *)

Module Js.

(** The values a request body parsed by [express.json()] can hold. An
    array or object is known by its identity [ref] (a value parsed from
    another request is another object) and by the text its conversion to a
    primitive gives: the elements joined by commas for an array,
    "[object Object]" for an object, and [None] when the conversion throws
    a TypeError, as it does for an object with an own property [toString]
    that is no function. *)
Inductive Value :=
| Undefined
| Null
| Str (s : string)
| Num (x : float)
| Bool (b : bool)
| Obj (ref : nat) (primitive : option string).

Inductive Error :=
| TypeError.

(** Result of a call: it returns a value or throws. *)
Inductive Completion (A : Type) :=
| Returns (a : A)
| Throws (e : Error).

Arguments Returns {A} a.
Arguments Throws {A} e.

Definition bind {A B : Type} (c : Completion A) (k : A -> Completion B)
  : Completion B :=
  match c with
  | Returns a => k a
  | Throws e => Throws e
  end.

(** [arr.map(f)] for a callback that can throw: left to right, the first
    throw aborts the whole call. *)
Fixpoint mapM {A B : Type} (f : A -> Completion B) (l : list A)
  : Completion (list B) :=
  match l with
  | [] => Returns []
  | x :: xs => bind (f x) (fun y => bind (mapM f xs) (fun ys => Returns (y :: ys)))
  end.

(** [String.prototype.toLowerCase] on one code unit of the range 0..255:
    A-Z and the Latin-1 capitals (U+00C0..U+00DE apart from the
    multiplication sign U+00D7) move up by 32. *)
Definition lowerUnit (c : ascii) : ascii :=
  let n := nat_of_ascii c in
  if ((65 <=? n) && (n <=? 90))%nat
     || ((192 <=? n) && (n <=? 222) && negb (n =? 215))%nat
  then ascii_of_nat (n + 32)
  else c.

Fixpoint toLowerCase (s : string) : string :=
  match s with
  | EmptyString => EmptyString
  | String c t => String (lowerUnit c) (toLowerCase t)
  end.

(** [s.includes(sub)]: [sub] occurs in [s] as a contiguous substring. *)
Fixpoint includes (s sub : string) : bool :=
  String.prefix sub s
  || match s with
     | EmptyString => false
     | String _ t => includes t sub
     end.

(** [(s.match(new RegExp(word, 'g')) || []).length] for a non-empty [word]
    of plain letters: the scan goes left to right, and after a match it
    resumes behind the matched text, so the matches counted do not overlap.
    [skip] is the number of code units of the last match still to pass. *)
Fixpoint matchCountFrom (word : string) (skip : nat) (s : string) : nat :=
  match s with
  | EmptyString => 0
  | String _ t =>
      match skip with
      | S k => matchCountFrom word k t
      | O =>
          if String.prefix word s
          then S (matchCountFrom word (String.length word - 1) t)
          else matchCountFrom word 0 t
      end
  end.

Definition matchCount (s word : string) : nat := matchCountFrom word 0 s.

(** A length or a small count as a number. *)
Definition ofNat (n : nat) : float := PrimFloat.of_uint63 (Uint63.of_Z (Z.of_nat n)).

(** An integer as the nearest number (ties to even, overflow to infinity). *)
Definition ofZ (z : Z) : float :=
  match z with
  | Z0 => 0%float
  | Zpos p => SF2Prim (binary_normalize prec emax (Zpos p) 0 false)
  | Zneg p => (- SF2Prim (binary_normalize prec emax (Zpos p) 0 false))%float
  end.

(** [Math.min(x, y)]: NaN when an argument is NaN, and -0 below +0. *)
Definition Math_min (x y : float) : float :=
  if is_nan x || is_nan y then nan
  else if (x <? y)%float then x
  else if (y <? x)%float then y
  else if get_sign x then x else y.

(** [Math.max(x, y)]: NaN when an argument is NaN, and +0 above -0. *)
Definition Math_max (x y : float) : float :=
  if is_nan x || is_nan y then nan
  else if (x <? y)%float then y
  else if (y <? x)%float then x
  else if get_sign x then y else x.

(** [Math.max(...xs)]: -Infinity for no argument. *)
Definition Math_max_all (xs : list float) : float :=
  fold_left Math_max xs neg_infinity.

(** [Math.floor x]: the largest integral number not above [x]; NaN, the
    infinities and both zeros are returned unchanged. A finite [x] is
    (-1)^s * m * 2^e; with [e < 0] its magnitude has integer part
    [m / 2^(-e)], below 2^53. *)
Definition Math_floor (x : float) : float :=
  match Prim2SF x with
  | S754_finite s m e =>
      if (0 <=? e)%Z then x
      else
        let d := Z.shiftr (Zpos m) (- e) in
        let exact := (Z.shiftl d (- e) =? Zpos m)%Z in
        if s
        then (- PrimFloat.of_uint63 (Uint63.of_Z (if exact then d else d + 1)))%float
        else PrimFloat.of_uint63 (Uint63.of_Z d)
  | _ => x
  end.

(** [Math.trunc x]: the integral part of [x], rounding toward zero. *)
Definition Math_trunc (x : float) : float :=
  match Prim2SF x with
  | S754_finite s m e =>
      if (0 <=? e)%Z then x
      else
        let r := PrimFloat.of_uint63 (Uint63.of_Z (Z.shiftr (Zpos m) (- e))) in
        if s then (- r)%float else r
  | _ => x
  end.

(** [x || d] on numbers: [d] when [x] is falsy (NaN, +0 or -0). *)
Definition orElse (x d : float) : float :=
  if is_nan x || is_zero x then d else x.

(** White space that [parseInt] skips, in the range 0..255: TAB, LF, VT, FF,
    CR, SP and NBSP. *)
Definition isWhiteSpace (c : ascii) : bool :=
  let n := nat_of_ascii c in
  ((9 <=? n) && (n <=? 13) || (n =? 32) || (n =? 160))%nat.

Fixpoint trimStart (s : string) : string :=
  match s with
  | String c t => if isWhiteSpace c then trimStart t else s
  | EmptyString => EmptyString
  end.

(** Value of a digit in the given radix (10 or 16), if it is one. *)
Definition digitValue (radix : Z) (c : ascii) : option Z :=
  let n := Z.of_nat (nat_of_ascii c) in
  let v :=
    if ((48 <=? n) && (n <=? 57))%Z then Some (n - 48)%Z
    else if ((97 <=? n) && (n <=? 122))%Z then Some (n - 87)%Z
    else if ((65 <=? n) && (n <=? 90))%Z then Some (n - 55)%Z
    else None in
  match v with
  | Some d => if (d <? radix)%Z then Some d else None
  | None => None
  end.

(** The longest prefix of digits, read as an integer; [None] when the text
    starts with no digit. [acc] is the value of the digits read so far. *)
Fixpoint readDigits (radix : Z) (acc : option Z) (s : string) : option Z :=
  match s with
  | EmptyString => acc
  | String c t =>
      match digitValue radix c with
      | Some d =>
          readDigits radix
            (Some (match acc with Some a => a * radix + d | None => d end)%Z) t
      | None => acc
      end
  end.

(** A decimal digit, 0 to 9. *)
Definition isDecimalDigit (c : ascii) : bool :=
  let n := nat_of_ascii c in ((48 <=? n) && (n <=? 57))%nat.

(** An optional sign: whether it is a minus, and the text behind it. *)
Definition readSign (s : string) : bool * string :=
  match s with
  | String c t =>
      if (c =? "-")%char then (true, t)
      else if (c =? "+")%char then (false, t)
      else (false, s)
  | EmptyString => (false, s)
  end.

(** An optional [0x] or [0X] prefix: the radix, and the text to read the
    digits from. *)
Definition readRadix (s : string) : Z * string :=
  match s with
  | String c1 (String c2 t) =>
      if ((c1 =? "0") && ((c2 =? "x") || (c2 =? "X")))%char
      then (16%Z, t)
      else (10%Z, s)
  | _ => (10%Z, s)
  end.

(** [parseInt(s)] with no radix argument: leading white space, an optional
    sign, an optional [0x]/[0X] prefix selecting radix 16, then the longest
    digit prefix; NaN when there is no digit. *)
Definition parseInt (s : string) : float :=
  let '(neg, s2) := readSign (trimStart s) in
  let '(radix, s3) := readRadix s2 in
  match readDigits radix None s3 with
  | None => nan
  | Some z => if neg then (- ofZ z)%float else ofZ z
  end.

(** [typeof v === 'string'] *)
Definition isText (v : Value) : bool :=
  match v with
  | Str _ => true
  | _ => false
  end.

(** [ToBoolean v]: the falsy values are [undefined], [null], the empty
    string, NaN, both zeros and [false]. *)
Definition truthy (v : Value) : bool :=
  match v with
  | Undefined | Null => false
  | Str EmptyString => false
  | Str (String _ _) => true
  | Num x => negb (is_nan x || is_zero x)
  | Bool b => b
  | Obj _ _ => true
  end.

(** [v || '']: [v] itself when it is truthy, the empty string otherwise. *)
Definition orEmptyString (v : Value) : Value :=
  if truthy v then v else Str EmptyString.

(** [String(v)] for a property that may be absent. *)
Definition toStringOpt (v : option string) : string :=
  match v with
  | Some s => s
  | None => "undefined"%string
  end.

(** [ToNumber] of a numeric property that may be absent: [undefined] is NaN. *)
Definition toNumberOpt (v : option float) : float :=
  match v with
  | Some x => x
  | None => nan
  end.

End Js.

(** ** server.js: [class NLPEngine] *)

Module NLPEngine.

Import Js.

Definition hazardKeywords : list (string * list string) :=
  [ ("flood", ["flood"; "flooding"; "water"; "rain"; "overflow"; "submerged"]);
    ("storm", ["storm"; "cyclone"; "hurricane"; "wind"; "tornado"]);
    ("fire", ["fire"; "burning"; "smoke"; "flames"; "wildfire"]);
    ("earthquake", ["earthquake"; "tremor"; "shake"; "seismic"]);
    ("tsunami", ["tsunami"; "wave"; "surge"; "coastal"]);
    ("accident", ["accident"; "crash"; "collision"; "emergency"]) ]%string.

Definition urgencyKeywords : list string :=
  [ "urgent"; "emergency"; "critical"; "immediate"; "help"; "rescue" ]%string.

Definition locationKeywords : list string :=
  [ "near"; "at"; "in"; "around"; "close to" ]%string.

Definition negativeWords : list string :=
  [ "danger"; "disaster"; "severe"; "critical"; "emergency" ]%string.

Definition positiveWords : list string :=
  [ "safe"; "help"; "rescue"; "support" ]%string.

(** The [analysis] object. [hazardType] starts as [null] ([None]). *)
Record Analysis := {
  hazardType : option string;
  urgencyLevel : float;
  keywords : list string;
  sentiment : string;
  confidence : float
}.

Definition initialAnalysis : Analysis :=
  {| hazardType := None;
     urgencyLevel := 0;
     keywords := [];
     sentiment := "neutral";
     confidence := 0 |}.

(** [keywords.filter(keyword => lowerText.includes(keyword))] *)
Definition matchesIn (lowerText : string) (kws : list string) : list string :=
  filter (fun keyword => includes lowerText keyword) kws.

(** One iteration of the loop over [Object.entries(this.hazardKeywords)]. *)
Definition detectHazard (lowerText : string) (analysis : Analysis)
    (entry : string * list string) : Analysis :=
  let '(type, kws) := entry in
  let matches := matchesIn lowerText kws in
  if (0 <? List.length matches)%nat
  then {| hazardType := Some type;
          urgencyLevel := urgencyLevel analysis;
          keywords := keywords analysis ++ matches;
          sentiment := sentiment analysis;
          confidence := (confidence analysis + ofNat (List.length matches) * 0.2)%float |}
  else analysis.

(** [words.reduce((count, word) => count + (lowerText.match(...) || []).length, 0)] *)
Definition countWords (lowerText : string) (words : list string) : nat :=
  fold_left (fun count word => count + matchCount lowerText word) words 0.

(** The body of [analyzeText] behind [text.toLowerCase()]. *)
Definition analyzeLower (lowerText : string) : Analysis :=
  let a1 := fold_left (detectHazard lowerText) hazardKeywords initialAnalysis in
  let urgencyMatches := matchesIn lowerText urgencyKeywords in
  let negCount := countWords lowerText negativeWords in
  let posCount := countWords lowerText positiveWords in
  {| hazardType := hazardType a1;
     urgencyLevel := Math_min (ofNat (List.length urgencyMatches) * 0.3)%float 1;
     keywords := keywords a1 ++ urgencyMatches;
     sentiment :=
       if (posCount <? negCount)%nat then "negative"
       else if (negCount <? posCount)%nat then "positive"
       else sentiment a1;
     confidence := Math_min (confidence a1) 1 |}.

(** [analyzeText(text)]: [text.toLowerCase()] throws a TypeError when
    [text] is [null] or [undefined] (a property read on no object) and
    when it is a number, a boolean, an array or an object (no method
    [toLowerCase] to call). *)
Definition analyzeText (text : Value) : Completion Analysis :=
  match text with
  | Str s => Returns (analyzeLower (toLowerCase s))
  | Undefined | Null => Throws TypeError
  | Num _ | Bool _ | Obj _ _ => Throws TypeError
  end.

(** The [nlpAnalysis] property the [POST /api/reports] route gives a new
    report: [nlpEngine.analyzeText(req.body.description || '')]. *)
Definition nlpAnalysis (description : Value) : Completion Analysis :=
  analyzeText (orEmptyString description).

(** A social-media post: [content] as read from the object, [engagement]
    as the number the division reads, and the other properties of the
    object, which the spread copies unchanged. *)
Record Post := {
  platform : string;
  content : Value;
  engagement : float
}.

(** A post spread into a new object with [analysis] and [relevanceScore]. *)
Record AnalyzedPost := {
  post : Post;
  analysis : Analysis;
  relevanceScore : float
}.

Definition calculateRelevance (p : Post) : Completion float :=
  bind (analyzeText (content p)) (fun analysis =>
  Returns (confidence analysis * (1 + engagement p / 100)
           * (urgencyLevel analysis + 0.5))%float).

Definition processSocialMedia (posts : list Post) : Completion (list AnalyzedPost) :=
  bind (mapM (fun p =>
          bind (analyzeText (content p)) (fun a =>
          bind (calculateRelevance p) (fun r =>
          Returns {| post := p; analysis := a; relevanceScore := r |})))
        posts)
    (fun mapped =>
       Returns (filter (fun q => (0.3 <? confidence (analysis q))%float) mapped)).

(** [processSocialMedia(posts)] for an array, as [POST /api/social/analyze]
    passes it on from the request body, whose elements need not be
    post objects: [None] is an element that is [null], a primitive or an
    array, or an object whose [engagement] is an array or object without
    primitive value. On [null] the read [post.content] throws a TypeError;
    on a primitive or an array it gives [undefined], on which
    [analyzeText] throws one; on the last the division
    [post.engagement / 100] throws one, whatever the [content] is. *)
Definition processSocialMediaBatch (posts : list (option Post))
  : Completion (list AnalyzedPost) :=
  bind (mapM (fun element =>
          match element with
          | Some p =>
              bind (analyzeText (content p)) (fun a =>
              bind (calculateRelevance p) (fun r =>
              Returns {| post := p; analysis := a; relevanceScore := r |}))
          | None => Throws TypeError
          end)
        posts)
    (fun mapped =>
       Returns (filter (fun q => (0.3 <? confidence (analysis q))%float) mapped)).

End NLPEngine.

(** ** server.js: [generateHotspots] *)

(** The properties of a report that [generateHotspots] reads.
    - [timestamp] holds [new Date(report.timestamp).getTime()]: epoch
      milliseconds, NaN when the property is absent or is no date;
    - [latitude] and [longitude] hold a number, or [None] when the property
      is absent ([null], a coordinate held as text and the other values a
      request can bring are those of [RawReport.t] below);
    - [severity] and [type] hold a string or are absent;
    - [peopleAffected] holds the text [parseInt] reads: a form field as
      sent, a number by its decimal rendering, [None] when absent. *)
Module Report.

Record t := {
  timestamp : float;
  latitude : option float;
  longitude : option float;
  severity : option string;
  type : option string;
  peopleAffected : option string
}.

End Report.

(** One part of a cell key: the text [`${n}`] of an integral number [n].
    JavaScript prints NaN as "NaN", the infinities as "Infinity" and
    "-Infinity", both zeros as "0", and different integral numbers as
    different texts; a part records which of these texts it is. Since no
    part contains "_", the pair of parts stands for the key text
    [`${a}_${b}`]. *)
Inductive KeyPart :=
| PartNaN
| PartInfinity
| PartNegInfinity
| PartInt (z : Z).

Definition Key : Type := KeyPart * KeyPart.

Module Hotspot.

Record t := {
  id : Key;
  latitude : float;
  longitude : float;
  reportCount : nat;
  severity : string;
  types : list (option string);
  lastUpdate : float;
  affectedPeople : float
}.

End Hotspot.

Module Hotspots.

Import Js.

Definition keyPart (n : float) : KeyPart :=
  match Prim2SF n with
  | S754_nan => PartNaN
  | S754_infinity false => PartInfinity
  | S754_infinity true => PartNegInfinity
  | S754_zero _ => PartInt 0
  | S754_finite s m e =>
      let mag := if (0 <=? e)%Z then Z.shiftl (Zpos m) e else Z.shiftr (Zpos m) (- e) in
      PartInt (if s then - mag else mag)
  end.

Definition KeyPart_eqb (a b : KeyPart) : bool :=
  match a, b with
  | PartNaN, PartNaN => true
  | PartInfinity, PartInfinity => true
  | PartNegInfinity, PartNegInfinity => true
  | PartInt x, PartInt y => (x =? y)%Z
  | _, _ => false
  end.

Definition Key_eqb (a b : Key) : bool :=
  KeyPart_eqb (fst a) (fst b) && KeyPart_eqb (snd a) (snd b).

(** [24 * 60 * 60 * 1000] *)
Definition timeWindow : float := (24 * 60 * 60 * 1000)%float.

(** [now - new Date(report.timestamp).getTime() < timeWindow] *)
Definition inWindow (now : float) (report : Report.t) : bool :=
  (now - Report.timestamp report <? timeWindow)%float.

(** [`${Math.floor(report.latitude * 10)}_${Math.floor(report.longitude * 10)}`] *)
Definition cellKey (report : Report.t) : Key :=
  (keyPart (Math_floor (toNumberOpt (Report.latitude report) * 10)%float),
   keyPart (Math_floor (toNumberOpt (Report.longitude report) * 10)%float)).

(** [if (!locationClusters[key]) locationClusters[key] = [];
     locationClusters[key].push(report)]: a new key goes behind the keys
    already there. *)
Fixpoint pushReport (key : Key) (report : Report.t)
    (clusters : list (Key * list Report.t)) : list (Key * list Report.t) :=
  match clusters with
  | [] => [(key, [report])]
  | (k, members) :: rest =>
      if Key_eqb k key
      then (k, members ++ [report]) :: rest
      else (k, members) :: pushReport key report rest
  end.

Definition addReport (clusters : list (Key * list Report.t)) (report : Report.t)
  : list (Key * list Report.t) :=
  pushReport (cellKey report) report clusters.

(** [locationClusters] after the [filter(...).forEach(...)] pass. *)
Definition locationClusters (now : float) (reports : list Report.t)
  : list (Key * list Report.t) :=
  fold_left addReport (filter (inWindow now) reports) [].

(** [weights[r.severity]] for
    [weights = { critical: 4, high: 3, medium: 2, low: 1 }]; [None] is
    [undefined]. Names [Object.prototype] defines ("constructor",
    "toString", ...) are outside this model. *)
Definition weights (sev : option string) : option float :=
  match sev with
  | Some s =>
      if String.eqb s "critical" then Some 4%float
      else if String.eqb s "high" then Some 3%float
      else if String.eqb s "medium" then Some 2%float
      else if String.eqb s "low" then Some 1%float
      else None
  | None => None
  end.

(** [weights[r.severity] || 1] *)
Definition weightOf (r : Report.t) : float :=
  match weights (Report.severity r) with
  | Some w => orElse w 1
  | None => 1%float
  end.

Definition severityScore (clusterReports : list Report.t) : float :=
  fold_left (fun score r => (score + weightOf r)%float) clusterReports 0%float.

(** [severityScore > 10 ? 'critical' : severityScore > 6 ? 'high' : 'medium'] *)
Definition severityOf (score : float) : string :=
  if (10 <? score)%float then "critical"
  else if (6 <? score)%float then "high"
  else "medium".

Definition optString_eqb (a b : option string) : bool :=
  match a, b with
  | Some x, Some y => String.eqb x y
  | None, None => true
  | _, _ => false
  end.

(** [[...new Set(xs)]]: the first occurrence of each value, in order. *)
Fixpoint distinct (xs : list (option string)) : list (option string) :=
  match xs with
  | [] => []
  | x :: rest => x :: filter (fun y => negb (optString_eqb x y)) (distinct rest)
  end.

(** [parseInt(r.peopleAffected) || 0] *)
Definition peopleOf (r : Report.t) : float :=
  orElse (parseInt (toStringOpt (Report.peopleAffected r))) 0.

Definition affectedPeople (clusterReports : list Report.t) : float :=
  fold_left (fun sum r => (sum + peopleOf r)%float) clusterReports 0%float.

(** The [.map(([key, clusterReports]) => ...)] callback. *)
Definition makeHotspot (entry : Key * list Report.t) : Hotspot.t :=
  let '(key, clusterReports) := entry in
  let n := ofNat (List.length clusterReports) in
  let avgLat :=
    (fold_left (fun sum r => sum + toNumberOpt (Report.latitude r)) clusterReports 0 / n)%float in
  let avgLng :=
    (fold_left (fun sum r => sum + toNumberOpt (Report.longitude r)) clusterReports 0 / n)%float in
  {| Hotspot.id := key;
     Hotspot.latitude := avgLat;
     Hotspot.longitude := avgLng;
     Hotspot.reportCount := List.length clusterReports;
     Hotspot.severity := severityOf (severityScore clusterReports);
     Hotspot.types := distinct (map Report.type clusterReports);
     Hotspot.lastUpdate := Math_max_all (map Report.timestamp clusterReports);
     Hotspot.affectedPeople := affectedPeople clusterReports |}.

(** [generateHotspots()] as a function of the [reports] array and of
    [Date.now()]; the result is the new value of [hotspots]. *)
Definition generateHotspots (reports : list Report.t) (now : float) : list Hotspot.t :=
  map makeHotspot
    (filter (fun entry => (2 <=? List.length (snd entry))%nat)
       (locationClusters now reports)).

End Hotspots.

(** ** server.js: [generateHotspots] on reports as the routes store them *)

(** A stored report whose properties are still the values the request
    brought: [POST /api/reports] spreads [req.body] into the report, and
    [POST /api/sync] pushes each element of [offlineReports] as it is. A
    form field arrives as text, a JSON property as any JSON value, and a
    property the request leaves out is [Undefined]. [type] is only
    collected, never converted: it stays a text or absent, as in
    [Report.t]. *)
Module RawReport.

Record t := {
  timestamp : Js.Value;
  latitude : Js.Value;
  longitude : Js.Value;
  severity : Js.Value;
  type : option string;
  peopleAffected : Js.Value
}.

End RawReport.

Module RawHotspots.

Import Js Hotspots.

(** A value that is no array and no object. *)
Inductive Primitive :=
| PUndefined
| PNull
| PStr (s : string)
| PNum (x : float)
| PBool (b : bool).

(** [ToPrimitive(v)]: an array or object gives the text of its
    [toString()], or the call throws a TypeError. *)
Definition ToPrimitive (v : Value) : Completion Primitive :=
  match v with
  | Undefined => Returns PUndefined
  | Null => Returns PNull
  | Str s => Returns (PStr s)
  | Num x => Returns (PNum x)
  | Bool b => Returns (PBool b)
  | Obj _ (Some s) => Returns (PStr s)
  | Obj _ None => Throws TypeError
  end.

(** [arr.filter(f)] for a callback that can throw. *)
Fixpoint filterM {A : Type} (f : A -> Completion bool) (l : list A)
  : Completion (list A) :=
  match l with
  | [] => Returns []
  | x :: xs =>
      bind (f x) (fun keep =>
      bind (filterM f xs) (fun rest =>
      Returns (if keep then x :: rest else rest)))
  end.

(** [arr.reduce(f, acc)] for a callback that can throw. *)
Fixpoint reduceM {A B : Type} (f : B -> A -> Completion B) (l : list A) (acc : B)
  : Completion B :=
  match l with
  | [] => Returns acc
  | x :: xs => bind (f acc x) (fun acc' => reduceM f xs acc')
  end.

(** [if (!locationClusters[key]) locationClusters[key] = [];
     locationClusters[key].push(report)] *)
Fixpoint pushInto {A : Type} (key : Key) (report : A)
    (clusters : list (Key * list A)) : list (Key * list A) :=
  match clusters with
  | [] => [(key, [report])]
  | (k, members) :: rest =>
      if Key_eqb k key
      then (k, members ++ [report]) :: rest
      else (k, members) :: pushInto key report rest
  end.

(** [TimeClip(t)]: a time value is an integral number of milliseconds
    within 8.64e15 of the epoch; anything else that is finite is cut to
    one or, out of range, gives NaN. *)
Definition TimeClip (t : float) : float :=
  if is_nan t || is_infinity t then nan
  else if (8640000000000000 <? abs t)%float then nan
  else let i := Math_trunc t in if is_zero i then 0%float else i.

(** The conversions between text and numbers, which this development
    leaves to the implementation: [Date.parse(s)] (a time value or NaN),
    the number a text denotes for [ToNumber] and the text of a number for
    [ToString]. *)
Record Builtins := {
  Date_parse : string -> float;
  StringToNumber : string -> float;
  NumberToString : float -> string
}.

Section Conversions.

Variable builtins : Builtins.

(** [ToNumber(p)] on a primitive. *)
Definition numberOf (p : Primitive) : float :=
  match p with
  | PUndefined => nan
  | PNull => 0%float
  | PStr s => StringToNumber builtins s
  | PNum x => x
  | PBool b => if b then 1%float else 0%float
  end.

(** [ToString(p)] on a primitive. *)
Definition stringOf (p : Primitive) : string :=
  match p with
  | PUndefined => "undefined"
  | PNull => "null"
  | PStr s => s
  | PNum x => NumberToString builtins x
  | PBool b => if b then "true" else "false"
  end.

Definition ToNumber (v : Value) : Completion float :=
  bind (ToPrimitive v) (fun p => Returns (numberOf p)).

Definition ToString (v : Value) : Completion string :=
  bind (ToPrimitive v) (fun p => Returns (stringOf p)).

(** [new Date(v).getTime()]: a text is parsed, any other primitive is
    converted to a number and clipped. *)
Definition getTime (v : Value) : Completion float :=
  bind (ToPrimitive v) (fun p =>
  Returns (match p with
           | PStr s => Date_parse builtins s
           | _ => TimeClip (numberOf p)
           end)).

(** [sum + v]: a concatenation when either side is a text, an addition of
    numbers otherwise. *)
Definition plus (sum : Primitive) (v : Value) : Completion Primitive :=
  bind (ToPrimitive v) (fun p =>
  Returns (match sum, p with
           | PStr s, _ => PStr (s ++ stringOf p)
           | _, PStr t => PStr (stringOf sum ++ t)
           | _, _ => PNum (numberOf sum + numberOf p)
           end)).

(** [now - new Date(report.timestamp).getTime() < timeWindow] *)
Definition inWindow (now : float) (report : RawReport.t) : Completion bool :=
  bind (getTime (RawReport.timestamp report)) (fun t =>
  Returns (now - t <? timeWindow)%float).

(** [`${Math.floor(report.latitude * 10)}_${Math.floor(report.longitude * 10)}`] *)
Definition cellKey (report : RawReport.t) : Completion Key :=
  bind (ToNumber (RawReport.latitude report)) (fun lat =>
  bind (ToNumber (RawReport.longitude report)) (fun lng =>
  Returns (keyPart (Math_floor (lat * 10)%float),
           keyPart (Math_floor (lng * 10)%float)))).

(** The [forEach] pass over the in-window reports. *)
Fixpoint groupReports (reports : list RawReport.t)
    (clusters : list (Key * list RawReport.t))
  : Completion (list (Key * list RawReport.t)) :=
  match reports with
  | [] => Returns clusters
  | report :: rest =>
      bind (cellKey report) (fun key =>
      groupReports rest (pushInto key report clusters))
  end.

(** [locationClusters] after the [filter(...).forEach(...)] pass. *)
Definition locationClusters (now : float) (reports : list RawReport.t)
  : Completion (list (Key * list RawReport.t)) :=
  bind (filterM (inWindow now) reports) (fun recent =>
  groupReports recent []).

(** [clusterReports.reduce((sum, r) => sum + r.latitude, 0) / clusterReports.length],
    and the same for the longitude. *)
Definition average (coordinate : RawReport.t -> Value)
    (clusterReports : list RawReport.t) : Completion float :=
  bind (reduceM (fun sum r => plus sum (coordinate r)) clusterReports (PNum 0))
    (fun sum =>
  Returns (numberOf sum / ofNat (List.length clusterReports))%float).

(** [weights[r.severity] || 1]: the property key is the text of the
    severity; as for [weights], the names [Object.prototype] defines are
    outside this model. *)
Definition weightOf (r : RawReport.t) : Completion float :=
  bind (ToString (RawReport.severity r)) (fun key =>
  Returns (match weights (Some key) with
           | Some w => orElse w 1
           | None => 1%float
           end)).

Definition severityScore (clusterReports : list RawReport.t) : Completion float :=
  reduceM (fun score r => bind (weightOf r) (fun w => Returns (score + w)%float))
    clusterReports 0%float.

(** [parseInt(r.peopleAffected) || 0] *)
Definition peopleOf (r : RawReport.t) : Completion float :=
  bind (ToString (RawReport.peopleAffected r)) (fun s =>
  Returns (orElse (parseInt s) 0)).

Definition affectedPeople (clusterReports : list RawReport.t) : Completion float :=
  reduceM (fun sum r => bind (peopleOf r) (fun n => Returns (sum + n)%float))
    clusterReports 0%float.

(** The [.map(([key, clusterReports]) => ...)] callback. *)
Definition makeHotspot (entry : Key * list RawReport.t) : Completion Hotspot.t :=
  let '(key, clusterReports) := entry in
  bind (average RawReport.latitude clusterReports) (fun avgLat =>
  bind (average RawReport.longitude clusterReports) (fun avgLng =>
  bind (severityScore clusterReports) (fun score =>
  bind (mapM (fun r => getTime (RawReport.timestamp r)) clusterReports) (fun times =>
  bind (affectedPeople clusterReports) (fun people =>
  Returns {| Hotspot.id := key;
             Hotspot.latitude := avgLat;
             Hotspot.longitude := avgLng;
             Hotspot.reportCount := List.length clusterReports;
             Hotspot.severity := severityOf score;
             Hotspot.types := distinct (map RawReport.type clusterReports);
             Hotspot.lastUpdate := Math_max_all times;
             Hotspot.affectedPeople := people |}))))).

(** [generateHotspots()] as a function of the [reports] array and of
    [Date.now()]: the new value of [hotspots], or the TypeError that a
    conversion throws, which leaves [hotspots] as it was. *)
Definition generateHotspots (reports : list RawReport.t) (now : float)
  : Completion (list Hotspot.t) :=
  bind (locationClusters now reports) (fun clusters =>
  mapM makeHotspot
    (filter (fun entry => (2 <=? List.length (snd entry))%nat) clusters)).

End Conversions.

End RawHotspots.

(** ** ocean-api.js: [class OceanMonitorAPI] *)

Module OceanMonitorAPI.

Import Js.

Record Location := {
  lat : float;
  lng : float
}.

Module Hazard.

Record t := {
  type : string;
  severity : string;
  description : string;
  location : Location;
  timestamp : string
}.

End Hazard.

Record RiskFactors := {
  storm : float;
  waves : float;
  wind : float;
  visibility : float
}.

Record RiskAssessment := {
  overallRisk : float;
  riskLevel : string;
  factors : RiskFactors;
  recommendations : list string;
  timestamp : string
}.

Definition generateRecommendations (riskLevel : float) : list string :=
  if (0.7 <? riskLevel)%float then
    [ "Avoid all marine activities";
      "Small vessels should return to harbor immediately";
      "Monitor weather updates continuously";
      "Prepare emergency supplies" ]%string
  else if (0.4 <? riskLevel)%float then
    [ "Exercise caution in marine activities";
      "Monitor weather conditions closely";
      "Ensure safety equipment is ready";
      "Consider postponing non-essential trips" ]%string
  else
    [ "Normal marine activities permitted";
      "Standard safety precautions advised";
      "Monitor routine weather updates" ]%string.

Section Scoring.

(** The transcendental functions of [Math], which the language leaves to
    the implementation. *)
Variable Math_sin Math_cos Math_sqrt : float -> float.
Variable Math_atan2 : float -> float -> float.

Definition Math_PI : float := 3.141592653589793%float.

Definition calculateDistance (pos1 pos2 : Location) : float :=
  let R := 6371%float in
  let dLat := ((lat pos2 - lat pos1) * Math_PI / 180)%float in
  let dLon := ((lng pos2 - lng pos1) * Math_PI / 180)%float in
  let a :=
    (Math_sin (dLat / 2) * Math_sin (dLat / 2)
     + Math_cos (lat pos1 * Math_PI / 180) * Math_cos (lat pos2 * Math_PI / 180)
       * Math_sin (dLon / 2) * Math_sin (dLon / 2))%float in
  (R * 2 * Math_atan2 (Math_sqrt a) (Math_sqrt (1 - a)))%float.

(** The callback of [this.hazards.forEach]: one hazard's share. *)
Definition addHazard (loc : Location) (riskFactors : RiskFactors) (hazard : Hazard.t)
  : RiskFactors :=
  let distance := calculateDistance loc (Hazard.location hazard) in
  let proximity := Math_max 0 (1 - distance / 100)%float in
  if String.eqb (Hazard.type hazard) "storm" then
    {| storm := (storm riskFactors
                 + proximity * (if String.eqb (Hazard.severity hazard) "high" then 0.8 else 0.5))%float;
       waves := waves riskFactors;
       wind := wind riskFactors;
       visibility := visibility riskFactors |}
  else if String.eqb (Hazard.type hazard) "waves" then
    {| storm := storm riskFactors;
       waves := (waves riskFactors
                 + proximity * (if String.eqb (Hazard.severity hazard) "high" then 0.7 else 0.4))%float;
       wind := wind riskFactors;
       visibility := visibility riskFactors |}
  else if String.eqb (Hazard.type hazard) "wind" then
    {| storm := storm riskFactors;
       waves := waves riskFactors;
       wind := (wind riskFactors + proximity * 0.3)%float;
       visibility := visibility riskFactors |}
  else if String.eqb (Hazard.type hazard) "visibility" then
    {| storm := storm riskFactors;
       waves := waves riskFactors;
       wind := wind riskFactors;
       visibility := (visibility riskFactors + proximity * 0.2)%float |}
  else riskFactors.

(** [assessRisk(location, timeframe = 24)] as a function of [this.hazards]
    and of the clock reading [new Date().toISOString()]. An absent
    [timeframe] ([None]) takes the default. *)
Definition assessRisk (hazards : list Hazard.t) (clock : string)
    (loc : Location) (timeframe : option float) : RiskAssessment :=
  let timeframe := match timeframe with Some t => t | None => 24%float end in
  let riskFactors :=
    fold_left (addHazard loc) hazards
      {| storm := 0; waves := 0; wind := 0; visibility := 0 |} in
  let overallRisk :=
    Math_min 1
      (fold_left (fun a b => (a + b)%float)
         [storm riskFactors; waves riskFactors; wind riskFactors; visibility riskFactors]
         0%float) in
  {| overallRisk := overallRisk;
     riskLevel :=
       if (0.7 <? overallRisk)%float then "high"
       else if (0.4 <? overallRisk)%float then "medium"
       else "low";
     factors := riskFactors;
     recommendations := generateRecommendations overallRisk;
     timestamp := clock |}.

End Scoring.

(** The [current] readings of a weather report, as [processWeatherData]
    reads them. *)
Module Current.

Record t := {
  temp : float;
  windSpeed : float;
  waveHeight : float;
  visibility : float;
  pressure : float
}.

End Current.

Section Weather.

(** [x.toFixed(1)], the decimal rendering with one fraction digit. *)
Variable toFixed1 : float -> string.

(** [processWeatherData(data)] as a function of [data.current] and of the
    three clock readings [new Date().toISOString()]; the result is the new
    value of [this.hazards], which starts from the empty array. *)
Definition processWeatherData (current : Current.t)
    (clockStorm clockWaves clockVisibility : string) : list Hazard.t :=
  let hazards : list Hazard.t := [] in
  let hazards :=
    if (50 <? Current.windSpeed current)%float
    then hazards ++
         [ {| Hazard.type := "storm";
              Hazard.severity :=
                if (70 <? Current.windSpeed current)%float then "high" else "medium";
              Hazard.description :=
                ("High wind speeds detected: "
                 ++ toFixed1 (Current.windSpeed current) ++ " km/h")%string;
              Hazard.location := {| lat := 20.5937; lng := 78.9629 |};
              Hazard.timestamp := clockStorm |} ]
    else hazards in
  let hazards :=
    if (3 <? Current.waveHeight current)%float
    then hazards ++
         [ {| Hazard.type := "waves";
              Hazard.severity :=
                if (4 <? Current.waveHeight current)%float then "high" else "medium";
              Hazard.description :=
                ("Dangerous wave heights: "
                 ++ toFixed1 (Current.waveHeight current) ++ "m")%string;
              Hazard.location := {| lat := 19.0; lng := 72.8 |};
              Hazard.timestamp := clockWaves |} ]
    else hazards in
  let hazards :=
    if (Current.visibility current <? 3)%float
    then hazards ++
         [ {| Hazard.type := "visibility";
              Hazard.severity := "medium";
              Hazard.description :=
                ("Poor visibility conditions: "
                 ++ toFixed1 (Current.visibility current) ++ "km")%string;
              Hazard.location := {| lat := 13.0; lng := 80.2 |};
              Hazard.timestamp := clockVisibility |} ]
    else hazards in
  hazards.

End Weather.

End OceanMonitorAPI.

(** ** server.js: the routes around the engine *)

Module Server.

Import Js NLPEngine Hotspots.

(** [a === b]: values of one type only; texts and booleans by their
    content, numbers by their value (NaN equals nothing, the two zeros
    equal each other), arrays and objects by identity. *)
Definition strictEquals (a b : Value) : bool :=
  match a, b with
  | Undefined, Undefined => true
  | Null, Null => true
  | Str s, Str t => String.eqb s t
  | Num x, Num y => (x =? y)%float
  | Bool x, Bool y => Bool.eqb x y
  | Obj r _, Obj r' _ => Nat.eqb r r'
  | _, _ => false
  end.

(** The properties of a request body the user routes read. *)
Record Credentials := {
  email : Value;
  password : Value
}.

(** A stored user, [{ id: Date.now(), ...req.body, registeredAt }]:
    [created] is the reading of [Date.now()] (the [id], unless the body
    brings one of its own), [body] the properties spread from the request. *)
Record User := {
  created : float;
  body : Credentials;
  registeredAt : string
}.

(** [POST /api/users/register]: the new value of [users] and the user of
    the response [{ success: true, user }]. *)
Definition register (users : list User) (requestBody : Credentials)
    (now : float) (clock : string) : list User * User :=
  let user := {| created := now; body := requestBody; registeredAt := clock |} in
  (users ++ [user], user).

(** The response of [POST /api/users/login]. *)
Record LoginResponse := {
  success : bool;
  user : option User
}.

(** [POST /api/users/login]:
    [users.find(u => u.email === email)], [success: !!user]. *)
Definition login (users : list User) (requestBody : Credentials) : LoginResponse :=
  let found := find (fun u => strictEquals (email (body u)) (email requestBody)) users in
  {| success := match found with Some _ => true | None => false end;
     user := found |}.

(** The test of [POST /api/reports] that guards [triggerEarlyWarning]:
    [report.severity === 'critical' || report.nlpAnalysis.urgencyLevel > 0.7],
    for the [severity] and the [description] of the request body. *)
Definition earlyWarningTriggered (severity description : Value)
  : Completion bool :=
  bind (nlpAnalysis description) (fun analysis =>
  Returns (strictEquals severity (Str "critical")
           || (0.7 <? urgencyLevel analysis)%float)).

(** The result of [getUrgencyTrends()]. *)
Record UrgencyTrends := {
  total : nat;
  critical : nat;
  high : nat
}.

(** [reports.filter(r => Date.now() - new Date(r.timestamp).getTime() < ...)]:
    the callback reads the clock anew for each report; [clockAt i] is the
    reading for the report at index [i]. *)
Fixpoint filterLast24h (clockAt : nat -> float) (i : nat) (reports : list Report.t)
  : list Report.t :=
  match reports with
  | [] => []
  | r :: rest =>
      if (clockAt i - Report.timestamp r <? 24 * 60 * 60 * 1000)%float
      then r :: filterLast24h clockAt (S i) rest
      else filterLast24h clockAt (S i) rest
  end.

(** [getUrgencyTrends()] as a function of [reports] and of the clock. *)
Definition getUrgencyTrends (reports : list Report.t) (clockAt : nat -> float)
  : UrgencyTrends :=
  let last24h := filterLast24h clockAt 0 reports in
  {| total := List.length last24h;
     critical :=
       List.length
         (filter (fun r => optString_eqb (Report.severity r) (Some "critical"%string))
            last24h);
     high :=
       List.length
         (filter (fun r => optString_eqb (Report.severity r) (Some "high"%string))
            last24h) |}.

(** The response of [POST /api/social/analyze]. *)
Record SocialResponse := {
  analyzed : nat;
  relevant : nat;
  posts : list AnalyzedPost
}.

(** [POST /api/social/analyze]: the new value of [socialPosts] and the
    response. *)
Definition socialAnalyze (socialPosts : list AnalyzedPost) (requestPosts : list Post)
  : Completion (list AnalyzedPost * SocialResponse) :=
  bind (processSocialMedia requestPosts) (fun analyzedPosts =>
  let isRelevant := fun p => (0.5 <? relevanceScore p)%float in
  Returns
    (socialPosts ++ filter isRelevant analyzedPosts,
     {| analyzed := List.length analyzedPosts;
        relevant := List.length (filter isRelevant analyzedPosts);
        posts := analyzedPosts |})).

End Server.

(** * Notions the properties are stated with *)

(** ** The text analysis: matches, counts, and the spec's wording *)

Module NLPEngineSpec.

Import Js NLPEngine.

(** A category matches a text when one of its keywords occurs in it. *)
Definition categoryMatches (lowerText : string) (entry : string * list string) : bool :=
  existsb (fun keyword => includes lowerText keyword) (snd entry).

(** The categories with a match, in the enumeration order of
    [hazardKeywords]. *)
Definition matchingCategories (text : string) : list string :=
  map fst (filter (categoryMatches (toLowerCase text)) hazardKeywords).

(** The spec's tie-break, as it words it: when more than one category
    matches, the earliest one in the enumeration order is reported. *)
Definition earliest_category_reported (text : string) : Prop :=
  (1 < List.length (matchingCategories text))%nat ->
  exists a, analyzeText (Str text) = Returns a
            /\ hazardType a = hd_error (matchingCategories text).

(** The spec's testable property: a text with a flood keyword (no category
    is ordered before flood) has hazard type flood. *)
Definition flood_reported (text : string) : Prop :=
  In "flood"%string (matchingCategories text) ->
  exists a, analyzeText (Str text) = Returns a /\ hazardType a = Some "flood"%string.

(** The zero-signal result: [hazardType] is [null], the spec's "none". *)
Definition zeroSignal : Analysis := initialAnalysis.

(** The spec's contract for absent or empty text. *)
Definition yields_zero_signal (text : Value) : Prop :=
  analyzeText text = Returns zeroSignal.

(** [0 <= x <= 1] on numbers; false for NaN. *)
Definition inUnitInterval (x : float) : bool :=
  ((0 <=? x) && (x <=? 1))%float.

(** The number [confidence] holds after the loop over the categories, from
    the number of matches of each category and the value before it. *)
Definition confidenceFrom (counts : list nat) (c0 : float) : float :=
  fold_left
    (fun c n => if (0 <? n)%nat then (c + ofNat n * 0.2)%float else c)
    counts c0.

(** [check] holds of every vector of counts within the given bounds. *)
Fixpoint forallCounts (bounds : list nat) (check : list nat -> bool) : bool :=
  match bounds with
  | [] => check []
  | b :: rest =>
      forallb (fun n => forallCounts rest (fun v => check (n :: v))) (seq 0 (S b))
  end.

(** *** Whole-word counting, as the spec words step 4 *)

(** A word character of [\w]: a letter, a digit or the underscore. *)
Definition isWordChar (c : ascii) : bool :=
  let n := nat_of_ascii c in
  ((48 <=? n) && (n <=? 57) || (65 <=? n) && (n <=? 90)
   || (97 <=? n) && (n <=? 122) || (n =? 95))%nat.

(** The maximal runs of word characters of a text; [cur] is the run being
    read, reversed. *)
Fixpoint wordsFrom (cur : list ascii) (s : string) : list string :=
  match s with
  | EmptyString =>
      match cur with
      | [] => []
      | _ => [string_of_list_ascii (rev cur)]
      end
  | String c t =>
      if isWordChar c then wordsFrom (c :: cur) t
      else match cur with
           | [] => wordsFrom [] t
           | _ => string_of_list_ascii (rev cur) :: wordsFrom [] t
           end
  end.

Definition wordsOf (s : string) : list string := wordsFrom [] s.

(** How often the words of [dictionary] occur in the text as whole words. *)
Definition wholeWordCount (lowerText : string) (dictionary : list string) : nat :=
  List.length
    (filter (fun w => existsb (String.eqb w) dictionary) (wordsOf lowerText)).

(** The sentiment rule of the spec over whole-word counts. *)
Definition wholeWordSentiment (text : string) : string :=
  let lowerText := toLowerCase text in
  let negCount := wholeWordCount lowerText negativeWords in
  let posCount := wholeWordCount lowerText positiveWords in
  if (posCount <? negCount)%nat then "negative"
  else if (negCount <? posCount)%nat then "positive"
  else "neutral".

(** How often a word starts in a text, at any position. *)
Fixpoint occurrences (word s : string) : nat :=
  match s with
  | EmptyString => 0
  | String _ t =>
      (if String.prefix word s then 1 else 0) + occurrences word t
  end.

(** Total number of places of the text where a word of the list starts. *)
Definition occurrencesOfAll (lowerText : string) (words : list string) : nat :=
  list_sum (map (fun w => occurrences w lowerText) words).

(** The text from its [k]-th code unit on. *)
Fixpoint dropUnits (k : nat) (s : string) : string :=
  match k, s with
  | O, _ => s
  | S k', String _ t => dropUnits k' t
  | S _, EmptyString => EmptyString
  end.

(** A word overlaps no shifted copy of itself: none of its proper
    non-empty suffixes is a prefix of it. *)
Definition unbordered (word : string) : bool :=
  forallb (fun k => negb (String.prefix (dropUnits k word) word))
    (seq 1 (String.length word - 1)).

(** The posts and the augmented posts of [processSocialMedia]. *)
Definition textOf (p : Post) : string :=
  match content p with
  | Str s => s
  | _ => EmptyString
  end.

Definition analysisOf (p : Post) : Analysis :=
  analyzeLower (toLowerCase (textOf p)).

Definition relevanceOf (p : Post) : float :=
  (confidence (analysisOf p) * (1 + engagement p / 100)
   * (urgencyLevel (analysisOf p) + 0.5))%float.

Definition augment (p : Post) : AnalyzedPost :=
  {| post := p; analysis := analysisOf p; relevanceScore := relevanceOf p |}.

(** The mock posts of the [/api/social/feed] route. *)
Definition mockPosts : list Post :=
  [ {| platform := "Twitter";
       content := Str "Heavy rainfall in Mumbai causing flooding #MumbaiRains #Emergency";
       engagement := 150 |};
    {| platform := "Facebook";
       content := Str "Cyclone warning issued for Odisha coast. Please stay safe!";
       engagement := 89 |};
    {| platform := "Instagram";
       content := Str "Forest fire spreading near Dehradun. Authorities responding.";
       engagement := 67 |} ]%string.

(** The spec's contract for a batch, as it words it: the posts whose
    analysis has a confidence above 0.3, each with its analysis and its
    relevance score. *)
Definition returns_confident_posts (posts : list Post) : Prop :=
  processSocialMedia posts
  = Returns
      (map augment
         (filter (fun p => (0.3 <? confidence (analysisOf p))%float) posts)).

(** A post object that has no [content] property. *)
Definition postWithoutContent : Post :=
  {| platform := "Twitter"; content := Undefined; engagement := 150 |}.

(** A boolean test of duplicate-freedom for lists of strings. *)
Fixpoint nodupb (l : list string) : bool :=
  match l with
  | [] => true
  | x :: t => negb (existsb (String.eqb x) t) && nodupb t
  end.

End NLPEngineSpec.

(** ** The hotspot generator: cells, and the spec's wording *)

Module HotspotsSpec.

Import Js Hotspots.

(** [locationClusters[key]]: the array stored under a key, if any. *)
Fixpoint lookup (key : Key) (clusters : list (Key * list Report.t))
  : option (list Report.t) :=
  match clusters with
  | [] => None
  | (k, members) :: rest =>
      if Key_eqb k key then Some members else lookup key rest
  end.

(** The in-window reports of a cell, in the order of [reports]. *)
Definition cellMembers (now : float) (reports : list Report.t) (key : Key)
  : list Report.t :=
  filter (fun r => Key_eqb (cellKey r) key) (filter (inWindow now) reports).

(** Two reports land in the same cell: one cluster holds both. *)
Definition sameCell (now : float) (reports : list Report.t) (r1 r2 : Report.t)
  : Prop :=
  exists key members,
    In (key, members) (locationClusters now reports)
    /\ In r1 members /\ In r2 members.

(** The cell key as the spec words it: [latitude * 10] and [longitude * 10]
    truncated to integers. *)
Definition truncatedKey (report : Report.t) : Key :=
  (keyPart (Math_trunc (toNumberOpt (Report.latitude report) * 10)%float),
   keyPart (Math_trunc (toNumberOpt (Report.longitude report) * 10)%float)).

(** The spec's partition: in-window reports share a cell exactly when
    their truncated pairs are equal. *)
Definition cells_by_truncation (now : float) (reports : list Report.t) : Prop :=
  forall r1 r2,
    In r1 reports -> In r2 reports ->
    inWindow now r1 = true -> inWindow now r2 = true ->
    (sameCell now reports r1 r2 <-> truncatedKey r1 = truncatedKey r2).

(** A text starts like a number for [parseInt]: after white space and an
    optional sign comes a decimal digit. *)
Definition startsNumeric (s : string) : bool :=
  match snd (readSign (trimStart s)) with
  | String c _ => isDecimalDigit c
  | EmptyString => false
  end.

(** What a cluster holds after more reports of its cell were pushed. *)
Definition extend (old : option (list Report.t)) (more : list Report.t)
  : option (list Report.t) :=
  match more with
  | [] => old
  | _ => Some (match old with Some members => members ++ more | None => more end)
  end.

(** Sample data: the clock, two critical reports in one Mumbai cell (the
    second with no [peopleAffected]), and two reports on either side of
    the equator. *)
Definition sampleNow : float := 1700000000000%float.

Definition mumbaiA : Report.t :=
  {| Report.timestamp := 1699999990000;
     Report.latitude := Some 19.07%float;
     Report.longitude := Some 72.87%float;
     Report.severity := Some "critical"%string;
     Report.type := Some "flood"%string;
     Report.peopleAffected := Some "12"%string |}.

Definition mumbaiB : Report.t :=
  {| Report.timestamp := 1699999995000;
     Report.latitude := Some 19.07%float;
     Report.longitude := Some 72.87%float;
     Report.severity := Some "critical"%string;
     Report.type := Some "storm"%string;
     Report.peopleAffected := None |}.

Definition southOfEquator : Report.t :=
  {| Report.timestamp := 1699999990000;
     Report.latitude := Some (-0.05)%float;
     Report.longitude := Some 0.05%float;
     Report.severity := Some "low"%string;
     Report.type := Some "flood"%string;
     Report.peopleAffected := Some "3"%string |}.

Definition northOfEquator : Report.t :=
  {| Report.timestamp := 1699999990000;
     Report.latitude := Some 0.05%float;
     Report.longitude := Some 0.05%float;
     Report.severity := Some "low"%string;
     Report.type := Some "flood"%string;
     Report.peopleAffected := Some "4"%string |}.

End HotspotsSpec.

(** ** The hotspot generator on stored reports: cells, and the spec's wording *)

Module RawHotspotsSpec.

Import Js Hotspots RawHotspots.

(** What a call gives when it returns, and [d] when it throws. *)
Definition result {A : Type} (d : A) (c : Completion A) : A :=
  match c with
  | Returns a => a
  | Throws _ => d
  end.

(** A value with a primitive value: every value but an array or object
    whose conversion throws. *)
Definition convertible (v : Value) : bool :=
  match v with
  | Obj _ None => false
  | _ => true
  end.

(** A report whose converted properties all have a primitive value. *)
Definition convertibleReport (r : RawReport.t) : bool :=
  convertible (RawReport.timestamp r)
  && convertible (RawReport.latitude r)
  && convertible (RawReport.longitude r)
  && convertible (RawReport.severity r)
  && convertible (RawReport.peopleAffected r).

(** [clusters[key]]: the array stored under a key, if any. *)
Fixpoint lookupIn {A : Type} (key : Key) (clusters : list (Key * list A))
  : option (list A) :=
  match clusters with
  | [] => None
  | (k, members) :: rest =>
      if Key_eqb k key then Some members else lookupIn key rest
  end.

(** What a cluster holds after more reports of its cell were pushed. *)
Definition extendWith {A : Type} (old : option (list A)) (more : list A)
  : option (list A) :=
  match more with
  | [] => old
  | _ => Some (match old with Some members => members ++ more | None => more end)
  end.

(** A text that is a decimal numeral: digits, and at least one. *)
Fixpoint allDigits (s : string) : bool :=
  match s with
  | EmptyString => true
  | String c t => isDecimalDigit c && allDigits t
  end.

Definition isNumeral (s : string) : bool :=
  match s with
  | EmptyString => false
  | String _ _ => allDigits s
  end.

(** A numeric [peopleAffected]: a number, or a text that is a numeral. *)
Definition numericPeople (v : Value) : bool :=
  match v with
  | Num _ => true
  | Str s => isNumeral s
  | _ => false
  end.

(** A missing coordinate: the property is absent or [null]. *)
Definition missing (v : Value) : bool :=
  match v with
  | Undefined | Null => true
  | _ => false
  end.

Definition missingCoordinates (r : RawReport.t) : bool :=
  missing (RawReport.latitude r) || missing (RawReport.longitude r).

(** The report with 0 in place of each missing coordinate. *)
Definition zeroMissing (r : RawReport.t) : RawReport.t :=
  {| RawReport.timestamp := RawReport.timestamp r;
     RawReport.latitude :=
       if missing (RawReport.latitude r) then Num 0 else RawReport.latitude r;
     RawReport.longitude :=
       if missing (RawReport.longitude r) then Num 0 else RawReport.longitude r;
     RawReport.severity := RawReport.severity r;
     RawReport.type := RawReport.type r;
     RawReport.peopleAffected := RawReport.peopleAffected r |}.

Section Conversions.

Variable builtins : Builtins.

(** The report is in the time window; false also when the test throws. *)
Definition inWindowOf (now : float) (r : RawReport.t) : bool :=
  result false (inWindow builtins now r).

(** The cell key of the report, when computing it does not throw. *)
Definition cellKeyOf (r : RawReport.t) : Key :=
  result (PartNaN, PartNaN) (cellKey builtins r).

(** The in-window reports of a cell, in the order of [reports]. *)
Definition cellMembers (now : float) (reports : list RawReport.t) (key : Key)
  : list RawReport.t :=
  filter (fun r => Key_eqb (cellKeyOf r) key) (filter (inWindowOf now) reports).

(** The spec's contract, in its three parts. The pass is never aborted. *)
Definition never_aborts (reports : list RawReport.t) (now : float) : Prop :=
  exists hotspots, generateHotspots builtins reports now = Returns hotspots.

(** A report with a non-numeric [peopleAffected] contributes 0 to the
    [affectedPeople] of its hotspot, the others what [parseInt] reads. *)
Definition specifiedPeople (r : RawReport.t) : Completion float :=
  if numericPeople (RawReport.peopleAffected r)
  then peopleOf builtins r
  else Returns 0%float.

Definition non_numeric_people_count_zero
    (reports : list RawReport.t) (now : float) : Prop :=
  exists hotspots,
    generateHotspots builtins reports now = Returns hotspots
    /\ forall h,
         In h hotspots ->
         reduceM (fun sum r => bind (specifiedPeople r) (fun n => Returns (sum + n)%float))
           (cellMembers now reports (Hotspot.id h)) 0%float
         = Returns (Hotspot.affectedPeople h).

(** A report with a missing coordinate is skipped or has 0 substituted:
    the pass gives what it gives with those reports left out, or with 0 in
    place of what is missing. *)
Definition missing_coordinates_skipped_or_zeroed
    (reports : list RawReport.t) (now : float) : Prop :=
  generateHotspots builtins reports now
  = generateHotspots builtins
      (filter (fun r => negb (missingCoordinates r)) reports) now
  \/ generateHotspots builtins reports now
     = generateHotspots builtins (map zeroMissing reports) now.

End Conversions.

(** A report of [Report.t] as a stored report: a number for each
    coordinate that is there, a text for each other property that is
    there, and the time value for the [timestamp]. *)
Definition ofOptionalNumber (v : option float) : Value :=
  match v with
  | Some x => Num x
  | None => Undefined
  end.

Definition ofOptionalText (v : option string) : Value :=
  match v with
  | Some s => Str s
  | None => Undefined
  end.

Definition ofReport (r : Report.t) : RawReport.t :=
  {| RawReport.timestamp := Num (Report.timestamp r);
     RawReport.latitude := ofOptionalNumber (Report.latitude r);
     RawReport.longitude := ofOptionalNumber (Report.longitude r);
     RawReport.severity := ofOptionalText (Report.severity r);
     RawReport.type := Report.type r;
     RawReport.peopleAffected := ofOptionalText (Report.peopleAffected r) |}.

Definition ofCluster (entry : Key * list Report.t) : Key * list RawReport.t :=
  (fst entry, map ofReport (snd entry)).

(** A statement that holds whatever the conversions of the implementation
    are. *)
Definition whatever_the_builtins (P : Builtins -> Prop) : Prop :=
  forall builtins, P builtins.

(** Conversions for examples that convert no text and print no number. *)
Definition noTextBuiltins : Builtins :=
  {| Date_parse := fun _ => nan;
     StringToNumber := fun _ => nan;
     NumberToString := fun _ => EmptyString |}.

(** Sample data, all ten seconds before [HotspotsSpec.sampleNow]: a
    report without coordinates and with the [peopleAffected] text "many";
    a Mumbai report whose [peopleAffected] text starts with digits; a
    report with [null] coordinates; a report whose latitude is an object
    that has no primitive value, as [{"toString": 1}] parsed from a
    request. *)

Definition withoutCoordinates : RawReport.t :=
  {| RawReport.timestamp := Num 1699999990000;
     RawReport.latitude := Undefined;
     RawReport.longitude := Undefined;
     RawReport.severity := Str "high";
     RawReport.type := Some "fire"%string;
     RawReport.peopleAffected := Str "many" |}.

Definition twelveAbc : RawReport.t :=
  {| RawReport.timestamp := Num 1699999990000;
     RawReport.latitude := Num 19.07;
     RawReport.longitude := Num 72.87;
     RawReport.severity := Str "low";
     RawReport.type := Some "flood"%string;
     RawReport.peopleAffected := Str "12abc" |}.

Definition nullCoordinates : RawReport.t :=
  {| RawReport.timestamp := Num 1699999990000;
     RawReport.latitude := Null;
     RawReport.longitude := Null;
     RawReport.severity := Str "low";
     RawReport.type := Some "flood"%string;
     RawReport.peopleAffected := Null |}.

Definition objectLatitude : RawReport.t :=
  {| RawReport.timestamp := Num 1699999990000;
     RawReport.latitude := Obj 0 None;
     RawReport.longitude := Num 72.87;
     RawReport.severity := Str "low";
     RawReport.type := Some "flood"%string;
     RawReport.peopleAffected := Str "3" |}.

End RawHotspotsSpec.

(** ** Further notions *)

Module Notions.

Import Js NLPEngine Hotspots HotspotsSpec.

(** The number of hazard keywords, over all categories, that occur in the
    lower-cased text. *)
Definition hazardMatchCount (text : string) : nat :=
  List.length
    (filter (fun keyword => includes (toLowerCase text) keyword)
       (flat_map snd hazardKeywords)).

(** The number of urgency keywords that occur in the lower-cased text. *)
Definition urgencyMatchCount (text : string) : nat :=
  List.length (matchesIn (toLowerCase text) urgencyKeywords).

(** The text [analyzeText] sees for a description that is a string or is
    falsy, passed through [description || '']. *)
Definition descriptionText (description : Value) : string :=
  match description with
  | Str s => s
  | _ => EmptyString
  end.

(** [severity === 'critical'] *)
Definition isCritical (severity : Value) : bool :=
  match severity with
  | Str s => String.eqb s "critical"
  | _ => false
  end.

(** A post with a text [content]. *)
Definition hasText (p : Post) : bool :=
  isText (content p).

(** An element of a batch that is a post object with a text [content]. *)
Definition isTextPost (element : option Post) : bool :=
  match element with
  | Some p => hasText p
  | None => false
  end.

(** A number that is not negative: NaN, +0, a positive number or
    +Infinity. *)
Definition notNegative (x : float) : bool :=
  match Prim2SF x with
  | S754_nan => true
  | S754_zero s => negb s
  | S754_infinity s => negb s
  | S754_finite s _ _ => negb s
  end.

(** The value of a decimal numeral read after [acc]. *)
Fixpoint numeralValue (acc : Z) (d : Decimal.uint) : Z :=
  match d with
  | Decimal.Nil => acc
  | Decimal.D0 l => numeralValue (acc * 10 + 0) l
  | Decimal.D1 l => numeralValue (acc * 10 + 1) l
  | Decimal.D2 l => numeralValue (acc * 10 + 2) l
  | Decimal.D3 l => numeralValue (acc * 10 + 3) l
  | Decimal.D4 l => numeralValue (acc * 10 + 4) l
  | Decimal.D5 l => numeralValue (acc * 10 + 5) l
  | Decimal.D6 l => numeralValue (acc * 10 + 6) l
  | Decimal.D7 l => numeralValue (acc * 10 + 7) l
  | Decimal.D8 l => numeralValue (acc * 10 + 8) l
  | Decimal.D9 l => numeralValue (acc * 10 + 9) l
  end.

(** The decimal text of a natural number, as [String(n)] gives it for an
    integer below 10^21: "0", "7", "120". *)
Definition decimalText (n : N) : string :=
  DecimalString.NilEmpty.string_of_uint (N.to_uint n).

(** A report of the Mumbai cell filed a week before the sample clock. *)
Definition weekOld : Report.t :=
  {| Report.timestamp := 1699395200000;
     Report.latitude := Some 19.07%float;
     Report.longitude := Some 72.87%float;
     Report.severity := Some "critical"%string;
     Report.type := Some "fire"%string;
     Report.peopleAffected := Some "40"%string |}.

(** The number of reports held by a list of clusters. *)
Definition clusterSizes (clusters : list (Key * list Report.t)) : nat :=
  list_sum (map (fun c => List.length (snd c)) clusters).

(** The hazard types [assessRisk] scores. *)
Definition recognizedType (type : string) : bool :=
  String.eqb type "storm" || String.eqb type "waves"
  || String.eqb type "wind" || String.eqb type "visibility".

(** None of the four factors is negative. *)
Definition factorsNotNegative (f : OceanMonitorAPI.RiskFactors) : Prop :=
  notNegative (OceanMonitorAPI.storm f) = true
  /\ notNegative (OceanMonitorAPI.waves f) = true
  /\ notNegative (OceanMonitorAPI.wind f) = true
  /\ notNegative (OceanMonitorAPI.visibility f) = true.

(** A hazard of a type the risk model does not know. *)
Definition fogHazard : OceanMonitorAPI.Hazard.t :=
  {| OceanMonitorAPI.Hazard.type := "fog";
     OceanMonitorAPI.Hazard.severity := "high";
     OceanMonitorAPI.Hazard.description := "Dense fog";
     OceanMonitorAPI.Hazard.location :=
       {| OceanMonitorAPI.lat := 19.0; OceanMonitorAPI.lng := 72.8 |};
     OceanMonitorAPI.Hazard.timestamp := "2023-11-14T22:13:20.000Z" |}%string.

(** Sample credentials and a registered user. *)
Definition aliceCredentials : Server.Credentials :=
  {| Server.email := Str "alice@example.org";
     Server.password := Str "correct horse" |}.

(** A login request with the e-mail of Alice and another password. *)
Definition aliceGuess : Server.Credentials :=
  {| Server.email := Str "alice@example.org";
     Server.password := Str "guess" |}.

(** A value a later request can bring again: every value but NaN, which
    equals nothing, and the arrays and objects, which each request parses
    into objects of its own. *)
Definition repeatable (v : Value) : bool :=
  match v with
  | Num x => negb (is_nan x)
  | Obj _ _ => false
  | _ => true
  end.

Definition alice : Server.User :=
  {| Server.created := 1700000000000;
     Server.body := aliceCredentials;
     Server.registeredAt := "2023-11-14T22:13:20.000Z" |}.

(** Readings of a storm with high waves and good visibility. *)
Definition stormReadings : OceanMonitorAPI.Current.t :=
  {| OceanMonitorAPI.Current.temp := 26;
     OceanMonitorAPI.Current.windSpeed := 80;
     OceanMonitorAPI.Current.waveHeight := 4.5;
     OceanMonitorAPI.Current.visibility := 9;
     OceanMonitorAPI.Current.pressure := 1012 |}.

End Notions.

(** * Properties *)

(** ** The text analysis of [NLPEngine] *)

Module NLPEngineProofs.

Import Js NLPEngine NLPEngineSpec.

(** *** Lists *)

Lemma filter_nonempty_existsb {A : Type} (f : A -> bool) (l : list A) :
  (0 <? List.length (filter f l))%nat = existsb f l.
Proof.
  induction l as [|x l IH]; simpl; [reflexivity|].
  destruct (f x); simpl; [reflexivity | exact IH].
Qed.

Lemma length_zero_nil {A : Type} (l : list A) :
  (0 <? List.length l)%nat = false -> l = [].
Proof.
  destruct l; simpl; [reflexivity | discriminate].
Qed.

Lemma last_cons_default {A : Type} (l : list A) (x d : A) :
  last (x :: l) d = last l x.
Proof.
  revert x d; induction l as [|y l IH]; intros x d; [reflexivity|].
  change (last (x :: y :: l) d) with (last (y :: l) d).
  rewrite (IH y d), (IH y x); reflexivity.
Qed.

Lemma filter_length_le {A : Type} (f : A -> bool) (l : list A) :
  List.length (filter f l) <= List.length l.
Proof.
  induction l as [|x l IH]; simpl; [lia|].
  destruct (f x); simpl; lia.
Qed.

Lemma filter_flat_map {A B : Type} (f : B -> bool) (g : A -> list B) (l : list A) :
  flat_map (fun x => filter f (g x)) l = filter f (flat_map g l).
Proof.
  induction l as [|x l IH]; simpl; [reflexivity|].
  rewrite filter_app, IH; reflexivity.
Qed.

Lemma filter_of_map {A B : Type} (f : B -> bool) (g : A -> B) (l : list A) :
  filter f (map g l) = map g (filter (fun x => f (g x)) l).
Proof.
  induction l as [|x l IH]; simpl; [reflexivity|].
  destruct (f (g x)); simpl; rewrite IH; reflexivity.
Qed.

Lemma fold_add_list_sum {A : Type} (f : A -> nat) (l : list A) (n : nat) :
  fold_left (fun count x => count + f x) l n = n + list_sum (map f l).
Proof.
  revert n; induction l as [|x l IH]; intro n; simpl; [lia|].
  rewrite IH; lia.
Qed.

Lemma NoDup_append {A : Type} (l l' : list A) :
  NoDup (l ++ l') <-> NoDup l /\ NoDup l' /\ (forall a, In a l -> ~ In a l').
Proof.
  induction l as [|x l IH]; simpl.
  - split.
    + intro H; repeat split; [constructor | exact H | intros a []].
    + intros (_ & H & _); exact H.
  - split.
    + intro H; inversion H as [|? ? Hx Hl]; subst.
      apply IH in Hl; destruct Hl as (Hl1 & Hl2 & Hd).
      repeat split.
      * constructor; [|exact Hl1].
        intro Hin; apply Hx, in_or_app; left; exact Hin.
      * exact Hl2.
      * intros a [<-|Ha] Hin'.
        -- apply Hx, in_or_app; right; exact Hin'.
        -- exact (Hd a Ha Hin').
    + intros (Hl1 & Hl2 & Hd).
      inversion Hl1 as [|? ? Hx Hl]; subst.
      constructor.
      * intro Hin; apply in_app_or in Hin; destruct Hin as [Hin|Hin].
        -- exact (Hx Hin).
        -- exact (Hd x (or_introl eq_refl) Hin).
      * apply IH; repeat split; [exact Hl | exact Hl2 |].
        intros a Ha; apply Hd; right; exact Ha.
Qed.

Lemma existsb_eqb_In (x : string) (l : list string) :
  existsb (String.eqb x) l = true <-> In x l.
Proof.
  rewrite existsb_exists; split.
  - intros (y & Hy & He); apply String.eqb_eq in He; subst; exact Hy.
  - intro H; exists x; split; [exact H | apply String.eqb_refl].
Qed.

Lemma nodupb_sound (l : list string) : nodupb l = true -> NoDup l.
Proof.
  induction l as [|x l IH]; simpl; intro H; [constructor|].
  apply andb_true_iff in H; destruct H as [Hx Hl].
  constructor; [|exact (IH Hl)].
  intro Hin; apply existsb_eqb_In in Hin.
  rewrite Hin in Hx; discriminate.
Qed.

(** *** The loop over the hazard categories *)

Section Loop.

Variable lowerText : string.

Lemma detect_hazardType (entries : list (string * list string)) (a : Analysis) :
  hazardType (fold_left (detectHazard lowerText) entries a)
  = last (map Some (map fst (filter (categoryMatches lowerText) entries)))
         (hazardType a).
Proof.
  revert a; induction entries as [|[type kws] entries IH]; intro a; [reflexivity|].
  cbn [fold_left filter].
  unfold detectHazard at 2, categoryMatches at 1, matchesIn; cbn [snd].
  rewrite filter_nonempty_existsb.
  destruct (existsb _ kws); rewrite IH; [|reflexivity].
  cbn [map fst hazardType]; rewrite last_cons_default; reflexivity.
Qed.

Lemma detect_keywords (entries : list (string * list string)) (a : Analysis) :
  keywords (fold_left (detectHazard lowerText) entries a)
  = keywords a ++ flat_map (fun e => matchesIn lowerText (snd e)) entries.
Proof.
  revert a; induction entries as [|[type kws] entries IH]; intro a.
  - simpl; rewrite app_nil_r; reflexivity.
  - cbn [fold_left flat_map snd]; rewrite IH.
    unfold detectHazard.
    destruct (0 <? List.length (matchesIn lowerText kws))%nat eqn:E.
    + cbn [keywords]; rewrite app_assoc; reflexivity.
    + rewrite (length_zero_nil _ E); reflexivity.
Qed.

Lemma detect_confidence (entries : list (string * list string)) (a : Analysis) :
  confidence (fold_left (detectHazard lowerText) entries a)
  = confidenceFrom
      (map (fun e => List.length (matchesIn lowerText (snd e))) entries)
      (confidence a).
Proof.
  revert a; induction entries as [|[type kws] entries IH]; intro a; [reflexivity|].
  cbn [fold_left map snd]; rewrite IH.
  unfold confidenceFrom; cbn [fold_left].
  unfold detectHazard.
  destruct (0 <? List.length (matchesIn lowerText kws))%nat; reflexivity.
Qed.

Lemma detect_sentiment (entries : list (string * list string)) (a : Analysis) :
  sentiment (fold_left (detectHazard lowerText) entries a) = sentiment a.
Proof.
  revert a; induction entries as [|[type kws] entries IH]; intro a; [reflexivity|].
  cbn [fold_left]; rewrite IH.
  unfold detectHazard.
  destruct (0 <? List.length (matchesIn lowerText kws))%nat; reflexivity.
Qed.

Lemma match_counts_bounded (entries : list (string * list string)) :
  Forall2 le
    (map (fun e => List.length (matchesIn lowerText (snd e))) entries)
    (map (fun e => List.length (snd e)) entries).
Proof.
  induction entries as [|e entries IH]; simpl; constructor; [|exact IH].
  apply filter_length_le.
Qed.

End Loop.

Lemma forallCounts_sound (bounds : list nat) :
  forall (check : list nat -> bool) (v : list nat),
    forallCounts bounds check = true -> Forall2 le v bounds -> check v = true.
Proof.
  induction bounds as [|b bounds IH]; intros check v H Hv.
  - inversion Hv; subst; exact H.
  - inversion Hv as [|n ? v' ? Hn Hv']; subst.
    cbn [forallCounts] in H.
    rewrite forallb_forall in H.
    apply (IH (fun w => check (n :: w)) v'); [|exact Hv'].
    apply H, in_seq; lia.
Qed.

(** *** Hazard type: which category is reported *)

(** C1, as the spec words it, fails: in "flood storm" the flood and the
    storm category both match, flood is the earliest of them, and
    [analyzeText] reports storm. *)
Lemma analyzeText_earliest_category_refuted :
  ~ earliest_category_reported "flood storm"
  /\ ~ flood_reported "flood storm".
Proof.
  split; intro H.
  - destruct H as (a & Ha & Ht); [vm_compute; lia|].
    injection Ha as <-; vm_compute in Ht; discriminate.
  - destruct H as (a & Ha & Ht); [vm_compute; tauto|].
    injection Ha as <-; vm_compute in Ht; discriminate.
Qed.

(** C1, amended: for every text, [analyzeText] reports the category that
    comes latest in the enumeration order among the categories with a
    matching keyword ([null] when no category matches): the loop over the
    categories does not stop at the first match, and each matching category
    overwrites [hazardType]. *)
Theorem analyzeText_reports_latest_category (text : string) :
  exists a, analyzeText (Str text) = Returns a
            /\ hazardType a = last (map Some (matchingCategories text)) None.
Proof.
  eexists; split; [reflexivity|].
  unfold analyzeLower; cbn [hazardType].
  rewrite detect_hazardType; reflexivity.
Qed.

(** The spec's end-to-end scenario: "emergency" is a keyword of the
    accident category, the last one, so the report is typed accident. *)
Example analyzeText_scenario_flood_emergency :
  exists a, analyzeText (Str "urgent flood emergency near the coast") = Returns a
            /\ hazardType a = Some "accident"%string
            /\ keywords a = ["flood"; "emergency"; "urgent"; "emergency"]%string.
Proof.
  eexists; split; [reflexivity|]; split; vm_compute; reflexivity.
Qed.

(** *** Absent and empty text *)

(** C2, as the spec words it, fails: a [null] text has no zero-signal
    result, the call throws. *)
Lemma analyzeText_null_refuted : ~ yields_zero_signal Null.
Proof.
  unfold yields_zero_signal; simpl; discriminate.
Qed.

(** C2, amended: [analyzeText] returns a result for every string, and the
    zero-signal result for the empty string; for an absent text ([null] or
    [undefined]), as for every other value that is no string, it throws a
    TypeError. The report route calls it with
    [req.body.description || '']: that returns a result for every string,
    gives the zero-signal result for an absent or otherwise falsy
    description, and still throws a TypeError for a truthy description
    that is no string (a number other than 0 and NaN, [true], an array, an
    object). *)
Theorem analyzeText_total_on_strings :
  (forall s, exists a, analyzeText (Str s) = Returns a)
  /\ yields_zero_signal (Str "")
  /\ analyzeText Null = Throws TypeError
  /\ analyzeText Undefined = Throws TypeError
  /\ (forall text, isText text = false -> analyzeText text = Throws TypeError)
  /\ (forall s, exists a, nlpAnalysis (Str s) = Returns a)
  /\ (forall description,
        truthy description = false -> nlpAnalysis description = Returns zeroSignal)
  /\ nlpAnalysis Null = Returns zeroSignal
  /\ nlpAnalysis Undefined = Returns zeroSignal
  /\ (forall description,
        truthy description = true -> isText description = false ->
        nlpAnalysis description = Throws TypeError).
Proof.
  split; [intro s; eexists; reflexivity|].
  split; [reflexivity|].
  split; [reflexivity|].
  split; [reflexivity|].
  split; [intros [| |s|x|b|r o] H; try discriminate H; reflexivity|].
  split; [intros [|c s]; eexists; reflexivity|].
  split; [intros description H; unfold nlpAnalysis, orEmptyString;
          rewrite H; reflexivity|].
  split; [reflexivity|].
  split; [reflexivity|].
  intros description Ht Hs; unfold nlpAnalysis, orEmptyString; rewrite Ht.
  destruct description; try discriminate Hs; reflexivity.
Qed.

(** A description of [0] is falsy and analysed as the empty text; a
    description of [5] reaches [analyzeText] and makes it throw. *)
Lemma nlpAnalysis_number_descriptions :
  nlpAnalysis (Num 0) = Returns zeroSignal
  /\ nlpAnalysis (Num 5) = Throws TypeError.
Proof.
  split.
  - apply (proj1 (proj2 (proj2 (proj2 (proj2 (proj2
             (proj2 analyzeText_total_on_strings))))))).
    reflexivity.
  - apply (proj2 (proj2 (proj2 (proj2 (proj2 (proj2
             (proj2 (proj2 (proj2 analyzeText_total_on_strings))))))))).
    + reflexivity.
    + reflexivity.
Defined.

(** *** Confidence and urgency are clamped *)

Lemma confidence_clamped_all_counts :
  forallCounts (map (fun e => List.length (snd e)) hazardKeywords)
    (fun v => inUnitInterval (Math_min (confidenceFrom v 0) 1)) = true.
Proof. vm_compute; reflexivity. Qed.

Lemma urgency_clamped_all_counts :
  forallb (fun n => inUnitInterval (Math_min (ofNat n * 0.3)%float 1))
    (seq 0 (S (List.length urgencyKeywords))) = true.
Proof. vm_compute; reflexivity. Qed.

(** C6: for every text, the confidence and the urgency level that
    [analyzeText] returns lie in [0, 1]. *)
Theorem analyzeText_confidence_urgency_in_unit_interval (text : string) :
  exists a, analyzeText (Str text) = Returns a
            /\ inUnitInterval (confidence a) = true
            /\ inUnitInterval (urgencyLevel a) = true.
Proof.
  eexists; split; [reflexivity|].
  unfold analyzeLower; cbn [confidence urgencyLevel]; split.
  - rewrite detect_confidence.
    apply (forallCounts_sound _ _ _ confidence_clamped_all_counts).
    apply match_counts_bounded.
  - pose proof urgency_clamped_all_counts as H.
    rewrite forallb_forall in H; apply H, in_seq.
    pose proof (filter_length_le
                  (fun keyword => includes (toLowerCase text) keyword)
                  urgencyKeywords).
    unfold matchesIn; lia.
Qed.

(** *** Matched keywords *)

Lemma hazard_keywords_nodup : NoDup (flat_map snd hazardKeywords).
Proof. apply nodupb_sound; vm_compute; reflexivity. Qed.

Lemma urgency_keywords_nodup : NoDup urgencyKeywords.
Proof. apply nodupb_sound; vm_compute; reflexivity. Qed.

Lemma shared_keyword_is_emergency (k : string) :
  In k (flat_map snd hazardKeywords) -> In k urgencyKeywords ->
  k = "emergency"%string.
Proof.
  intros Hh Hu.
  assert (H : forallb (fun x => if existsb (String.eqb x) urgencyKeywords
                                then String.eqb x "emergency" else true)
                (flat_map snd hazardKeywords) = true)
    by (vm_compute; reflexivity).
  rewrite forallb_forall in H; specialize (H k Hh).
  apply existsb_eqb_In in Hu; rewrite Hu in H.
  apply String.eqb_eq; exact H.
Qed.

Lemma keywords_split (lowerText : string) :
  keywords (analyzeLower lowerText)
  = filter (fun keyword => includes lowerText keyword) (flat_map snd hazardKeywords)
    ++ filter (fun keyword => includes lowerText keyword) urgencyKeywords.
Proof.
  unfold analyzeLower; cbn [keywords].
  rewrite detect_keywords; cbn [keywords initialAnalysis app].
  unfold matchesIn; rewrite filter_flat_map; reflexivity.
Qed.

(** C10, as the spec words it, fails: "emergency" is a keyword of the
    accident category and an urgency keyword, and the array returned for
    the text "emergency" holds it twice. *)
Lemma analyzeText_keywords_duplicate :
  exists a, analyzeText (Str "emergency") = Returns a
            /\ keywords a = ["emergency"; "emergency"]%string
            /\ ~ NoDup (keywords a).
Proof.
  eexists; split; [reflexivity|]; split; [vm_compute; reflexivity|].
  vm_compute; intro H; inversion H as [|? ? Hx _]; subst.
  apply Hx; left; reflexivity.
Qed.

(** C10, amended: [keywords] is an array, the hazard matches followed by
    the urgency matches. For every text it is free of duplicates exactly
    when the lower-cased text does not contain "emergency" (the one word in
    both a hazard list and the urgency list), and no string occurs in it
    more than twice. *)
Theorem analyzeText_keywords_duplicates (text : string) :
  exists a, analyzeText (Str text) = Returns a
            /\ (NoDup (keywords a)
                <-> includes (toLowerCase text) "emergency" = false)
            /\ (forall k, count_occ string_dec (keywords a) k <= 2).
Proof.
  eexists; split; [reflexivity|].
  rewrite keywords_split.
  set (P := fun keyword => includes (toLowerCase text) keyword).
  pose proof (NoDup_filter P hazard_keywords_nodup) as Hh.
  pose proof (NoDup_filter P urgency_keywords_nodup) as Hu.
  split.
  - rewrite NoDup_append; split.
    + intros (_ & _ & Hd).
      change (P "emergency"%string = false).
      destruct (P "emergency"%string) eqn:E; [|reflexivity].
      exfalso; apply (Hd "emergency"%string); apply filter_In; split;
        try exact E; vm_compute; tauto.
    + intro E; repeat split; [exact Hh | exact Hu |].
      intros k Hk Hk'.
      apply filter_In in Hk; destruct Hk as [Hk Pk].
      apply filter_In in Hk'; destruct Hk' as [Hk' _].
      rewrite (shared_keyword_is_emergency k Hk Hk') in Pk.
      change (P "emergency"%string = false) in E.
      rewrite E in Pk; discriminate.
  - intro k; rewrite count_occ_app.
    pose proof (proj1 (NoDup_count_occ string_dec _) Hh k).
    pose proof (proj1 (NoDup_count_occ string_dec _) Hu k).
    lia.
Qed.

(** *** Sentiment *)

Lemma prefix_split (w s : string) :
  String.prefix w s = true -> exists r, s = (w ++ r)%string.
Proof.
  revert s; induction w as [|a w IH]; intros s H.
  - exists s; reflexivity.
  - destruct s as [|b s]; [discriminate|].
    simpl in H; destruct (ascii_dec a b) as [<-|]; [|discriminate].
    destruct (IH s H) as [r ->]; exists r; reflexivity.
Qed.

Lemma prefix_of_shorter (v w r : string) :
  String.length v <= String.length w ->
  String.prefix w (v ++ r) = true -> String.prefix v w = true.
Proof.
  revert w; induction v as [|a v IH]; intros w Hlen H.
  - destruct w; reflexivity.
  - destruct w as [|b w]; [simpl in Hlen; lia|].
    simpl in H |- *.
    destruct (ascii_dec b a) as [->|]; [|discriminate].
    destruct (ascii_dec a a) as [_|]; [|congruence].
    apply IH; [simpl in Hlen; lia | exact H].
Qed.

Lemma dropUnits_append (k : nat) (w r : string) :
  k <= String.length w ->
  dropUnits k (w ++ r) = (dropUnits k w ++ r)%string.
Proof.
  revert w; induction k as [|k IH]; intros w H; [reflexivity|].
  destruct w as [|a w]; [simpl in H; lia|].
  simpl; apply IH; simpl in H; lia.
Qed.

Lemma dropUnits_length (k : nat) (w : string) :
  String.length (dropUnits k w) = String.length w - k.
Proof.
  revert w; induction k as [|k IH]; intro w; [simpl; lia|].
  destruct w as [|a w]; [reflexivity|]; simpl; apply IH.
Qed.

Lemma unbordered_no_overlap (word s : string) (k : nat) :
  unbordered word = true ->
  String.prefix word s = true ->
  0 < k < String.length word ->
  String.prefix word (dropUnits k s) = false.
Proof.
  intros Hu Hp Hk.
  destruct (String.prefix word (dropUnits k s)) eqn:E; [|reflexivity].
  destruct (prefix_split _ _ Hp) as [r ->].
  rewrite dropUnits_append in E by lia.
  apply prefix_of_shorter in E; [|rewrite dropUnits_length; lia].
  unfold unbordered in Hu; rewrite forallb_forall in Hu.
  specialize (Hu k); rewrite E in Hu.
  discriminate Hu; apply in_seq; lia.
Qed.

(** The scan of a global regular expression for an unbordered word finds
    every place where the word starts. *)
Lemma matchCountFrom_occurrences (word : string) :
  unbordered word = true ->
  forall (s : string) (k : nat),
    (forall j, j < k -> String.prefix word (dropUnits j s) = false) ->
    matchCountFrom word k s = occurrences word s.
Proof.
  intros Hu; induction s as [|c t IH]; intros k H; [reflexivity|].
  destruct k as [|k].
  - cbn [matchCountFrom occurrences].
    destruct (String.prefix word (String c t)) eqn:Hp.
    + rewrite IH; [reflexivity|].
      intros j Hj.
      apply (unbordered_no_overlap word (String c t) (S j) Hu Hp); lia.
    + apply IH; intros j Hj; lia.
  - cbn [matchCountFrom occurrences].
    assert (H0 : String.prefix word (String c t) = false) by (apply (H 0); lia).
    rewrite H0; cbn [Nat.add].
    apply IH; intros j Hj.
    apply (H (S j)); lia.
Qed.

Lemma matchCount_occurrences (lowerText word : string) :
  unbordered word = true ->
  matchCount lowerText word = occurrences word lowerText.
Proof.
  intro Hu; apply matchCountFrom_occurrences; [exact Hu|].
  intros j Hj; lia.
Qed.

Lemma countWords_occurrences (lowerText : string) (words : list string) :
  forallb unbordered words = true ->
  countWords lowerText words = occurrencesOfAll lowerText words.
Proof.
  intro H; unfold countWords, occurrencesOfAll.
  rewrite fold_add_list_sum; simpl; f_equal.
  apply map_ext_in; intros w Hw.
  apply matchCount_occurrences.
  rewrite forallb_forall in H; exact (H w Hw).
Qed.

(** C3, as the spec words it, fails: "unsafe" holds no whole word of either
    set, so whole-word counting makes it neutral, and [analyzeText] finds
    "safe" inside it and returns positive. *)
Lemma analyzeText_sentiment_not_whole_word :
  exists a, analyzeText (Str "unsafe") = Returns a
            /\ sentiment a = "positive"%string
            /\ wholeWordSentiment "unsafe" = "neutral"%string.
Proof.
  eexists; split; [reflexivity|]; split; vm_compute; reflexivity.
Qed.

(** C3, amended: for every text, [analyzeText] determines sentiment by
    counting, in the lower-cased text, the places where a word of the
    negative set starts and the places where a word of the positive set
    starts, at any position (inside longer words too); it returns
    "negative" iff the negative count exceeds the positive count,
    "positive" iff the positive count exceeds the negative count, and
    "neutral" otherwise. *)
Theorem analyzeText_sentiment_by_occurrences (text : string) :
  let negCount := occurrencesOfAll (toLowerCase text) negativeWords in
  let posCount := occurrencesOfAll (toLowerCase text) positiveWords in
  exists a, analyzeText (Str text) = Returns a
            /\ (sentiment a = "negative"%string <-> posCount < negCount)
            /\ (sentiment a = "positive"%string <-> negCount < posCount)
            /\ (sentiment a = "neutral"%string <-> negCount = posCount).
Proof.
  intros negCount posCount.
  eexists; split; [reflexivity|].
  unfold analyzeLower; cbn [sentiment].
  rewrite !countWords_occurrences by (vm_compute; reflexivity).
  rewrite detect_sentiment; cbn [sentiment initialAnalysis].
  fold negCount posCount.
  destruct (posCount <? negCount) eqn:E1; [apply Nat.ltb_lt in E1 | apply Nat.ltb_ge in E1].
  - repeat split; intro H; try discriminate; try reflexivity; lia.
  - destruct (negCount <? posCount) eqn:E2; [apply Nat.ltb_lt in E2 | apply Nat.ltb_ge in E2].
    + repeat split; intro H; try discriminate; try reflexivity; lia.
    + repeat split; intro H; try discriminate; try reflexivity; lia.
Qed.

(** *** Social-media batch *)

Lemma mapM_returns {A B : Type} (f : A -> Completion B) (g : A -> B) (l : list A) :
  (forall x, In x l -> f x = Returns (g x)) ->
  mapM f l = Returns (map g l).
Proof.
  induction l as [|x l IH]; intro H; [reflexivity|].
  cbn [mapM map]; rewrite (H x) by (left; reflexivity).
  cbn [bind]; rewrite IH; [reflexivity|].
  intros y Hy; apply H; right; exact Hy.
Qed.

(** [posts.map(f)] throws when [f] throws on one of the posts. *)
Lemma mapM_throws {A B : Type} (f : A -> Completion B) (l : list A) (x : A) :
  In x l -> f x = Throws TypeError -> mapM f l = Throws TypeError.
Proof.
  induction l as [|y l IH]; intros Hin Hx; [destruct Hin|].
  cbn [mapM].
  destruct (f y) as [b|e] eqn:Ey; cbn [bind].
  - destruct Hin as [->|Hin]; [rewrite Hx in Ey; discriminate Ey|].
    rewrite (IH Hin Hx); reflexivity.
  - destruct e; reflexivity.
Qed.




End NLPEngineProofs.

(** ** The hotspot generator *)

Module HotspotsProofs.

Import Js Hotspots HotspotsSpec.

(** *** Keys *)

Lemma KeyPart_eqb_eq (a b : KeyPart) : KeyPart_eqb a b = true <-> a = b.
Proof.
  destruct a, b; simpl; split; intro H;
    try discriminate; try reflexivity.
  - apply Z.eqb_eq in H; subst; reflexivity.
  - injection H as ->; apply Z.eqb_refl.
Qed.

Lemma Key_eqb_eq (a b : Key) : Key_eqb a b = true <-> a = b.
Proof.
  destruct a as [a1 a2], b as [b1 b2]; unfold Key_eqb; cbn [fst snd].
  rewrite andb_true_iff, !KeyPart_eqb_eq; split.
  - intros [-> ->]; reflexivity.
  - intro H; injection H as -> ->; split; reflexivity.
Qed.

Lemma Key_eqb_refl (a : Key) : Key_eqb a a = true.
Proof. apply Key_eqb_eq; reflexivity. Qed.

Lemma Key_eqb_neq (a b : Key) : Key_eqb a b = false <-> a <> b.
Proof.
  split.
  - intros H E; apply Key_eqb_eq in E; congruence.
  - intro H; destruct (Key_eqb a b) eqn:E; [|reflexivity].
    apply Key_eqb_eq in E; contradiction.
Qed.

(** *** The grouping pass *)

Lemma lookup_pushReport (q : Key) (r : Report.t)
    (clusters : list (Key * list Report.t)) (k : Key) :
  lookup k (pushReport q r clusters)
  = if Key_eqb q k
    then Some (match lookup k clusters with
               | Some members => members ++ [r]
               | None => [r]
               end)
    else lookup k clusters.
Proof.
  induction clusters as [|[k' members] clusters IH]; [reflexivity|].
  cbn [pushReport lookup].
  destruct (Key_eqb k' q) eqn:E1.
  - apply Key_eqb_eq in E1; subst k'.
    cbn [lookup]; destruct (Key_eqb q k); reflexivity.
  - cbn [lookup]; destruct (Key_eqb k' k) eqn:E2.
    + apply Key_eqb_eq in E2; subst k'.
      assert (E3 : Key_eqb q k = false).
      { apply Key_eqb_neq; intros ->; rewrite Key_eqb_refl in E1; discriminate. }
      rewrite E3; reflexivity.
    + exact IH.
Qed.

Lemma lookup_fold (l : list Report.t) :
  forall (clusters : list (Key * list Report.t)) (k : Key),
    lookup k (fold_left addReport l clusters)
    = extend (lookup k clusters) (filter (fun r => Key_eqb (cellKey r) k) l).
Proof.
  induction l as [|r l IH]; intros clusters k; [reflexivity|].
  cbn [fold_left filter]; rewrite IH.
  unfold addReport; rewrite lookup_pushReport.
  destruct (Key_eqb (cellKey r) k); [|reflexivity].
  destruct (lookup k clusters), (filter _ l); cbn [extend app];
    rewrite <- ?app_assoc; reflexivity.
Qed.

Lemma pushReport_keys (q : Key) (r : Report.t)
    (clusters : list (Key * list Report.t)) (k : Key) :
  In k (map fst (pushReport q r clusters)) -> k = q \/ In k (map fst clusters).
Proof.
  induction clusters as [|[k' members] clusters IH]; cbn [pushReport].
  - cbn; intros [<-|[]]; left; reflexivity.
  - destruct (Key_eqb k' q); cbn [map fst In].
    + intros [H|H]; right; [left | right]; exact H.
    + intros [H|H]; [right; left; exact H|].
      destruct (IH H) as [H'|H']; [left | right; right]; exact H'.
Qed.

Lemma pushReport_NoDup (q : Key) (r : Report.t)
    (clusters : list (Key * list Report.t)) :
  NoDup (map fst clusters) -> NoDup (map fst (pushReport q r clusters)).
Proof.
  induction clusters as [|[k' members] clusters IH]; cbn [pushReport]; intro H.
  - cbn; constructor; [intros [] | constructor].
  - inversion H as [|? ? Hk Hrest]; subst.
    destruct (Key_eqb k' q) eqn:E; cbn [map fst].
    + constructor; assumption.
    + constructor; [|exact (IH Hrest)].
      intro Hin; apply pushReport_keys in Hin; destruct Hin as [->|Hin].
      * rewrite Key_eqb_refl in E; discriminate.
      * exact (Hk Hin).
Qed.

Lemma fold_NoDup (l : list Report.t) :
  forall clusters, NoDup (map fst clusters) ->
                   NoDup (map fst (fold_left addReport l clusters)).
Proof.
  induction l as [|r l IH]; intros clusters H; [exact H|].
  cbn [fold_left]; apply IH, pushReport_NoDup, H.
Qed.

Lemma In_lookup (clusters : list (Key * list Report.t)) (k : Key)
    (members : list Report.t) :
  NoDup (map fst clusters) ->
  (In (k, members) clusters <-> lookup k clusters = Some members).
Proof.
  induction clusters as [|[k' ms] clusters IH]; intro H.
  - cbn; split; [intros [] | discriminate].
  - inversion H as [|? ? Hk Hrest]; subst.
    cbn [In lookup]; split.
    + intros [E|Hin].
      * injection E as -> ->; rewrite Key_eqb_refl; reflexivity.
      * assert (E : Key_eqb k' k = false).
        { apply Key_eqb_neq; intros ->; apply Hk.
          apply (in_map fst) in Hin; exact Hin. }
        rewrite E; apply IH; assumption.
    + destruct (Key_eqb k' k) eqn:E.
      * apply Key_eqb_eq in E; subst k'.
        intro E; injection E as ->; left; reflexivity.
      * intro Hl; right; apply IH; assumption.
Qed.

(** A cluster holds exactly the in-window reports of its cell, in their
    order; there is a cluster for each cell that has such a report. *)
Lemma clusters_members (now : float) (reports : list Report.t) (k : Key)
    (members : list Report.t) :
  In (k, members) (locationClusters now reports)
  <-> members = cellMembers now reports k /\ members <> [].
Proof.
  unfold locationClusters.
  rewrite In_lookup by (apply fold_NoDup; constructor).
  rewrite lookup_fold; cbn [lookup]; fold (cellMembers now reports k).
  destruct (cellMembers now reports k) as [|r l]; cbn [extend]; split.
  - discriminate.
  - intros [-> H]; contradiction.
  - intro H; injection H as <-; split; [reflexivity | discriminate].
  - intros [-> _]; reflexivity.
Qed.

Lemma in_own_cell (now : float) (reports : list Report.t) (r : Report.t) :
  In r reports -> inWindow now r = true ->
  In r (cellMembers now reports (cellKey r)).
Proof.
  intros Hin Hw; unfold cellMembers.
  apply filter_In; split; [|apply Key_eqb_refl].
  apply filter_In; split; assumption.
Qed.

Lemma member_cell (now : float) (reports : list Report.t) (r : Report.t) (k : Key) :
  In r (cellMembers now reports k) -> cellKey r = k.
Proof.
  unfold cellMembers; intro H; apply filter_In in H.
  apply Key_eqb_eq, H.
Qed.

(** The hotspots are those of the clusters with two members or more. *)
Lemma hotspot_of_cluster (reports : list Report.t) (now : float) (h : Hotspot.t) :
  In h (generateHotspots reports now)
  <-> (2 <= List.length (cellMembers now reports (Hotspot.id h))
       /\ h = makeHotspot (Hotspot.id h, cellMembers now reports (Hotspot.id h))).
Proof.
  unfold generateHotspots; rewrite in_map_iff; split.
  - intros ([k members] & <- & Hin).
    apply filter_In in Hin; destruct Hin as [Hin Hlen]; cbn [snd] in Hlen.
    apply clusters_members in Hin; destruct Hin as [-> _].
    cbn [makeHotspot Hotspot.id]; split; [apply Nat.leb_le, Hlen | reflexivity].
  - intros [Hlen Hh].
    exists (Hotspot.id h, cellMembers now reports (Hotspot.id h)).
    split; [symmetry; exact Hh|].
    apply filter_In; split; [|apply Nat.leb_le, Hlen].
    apply clusters_members; split; [reflexivity|].
    intro E; rewrite E in Hlen; simpl in Hlen; lia.
Qed.

(** *** Isolated reports and pairs of critical reports *)



(** *** Cells *)




(** *** Malformed fields *)

Lemma digitValue_not_decimal (c : ascii) :
  isDecimalDigit c = false -> digitValue 10 c = None.
Proof.
  destruct c as [[] [] [] [] [] [] [] []]; vm_compute; intro H;
    first [reflexivity | discriminate H].
Qed.

Lemma readRadix_not_decimal (c : ascii) (t : string) :
  isDecimalDigit c = false -> readRadix (String c t) = (10%Z, String c t).
Proof.
  intro H; unfold readRadix.
  destruct t as [|c2 t2]; [reflexivity|].
  destruct (Ascii.eqb c "0") eqn:E; [|reflexivity].
  apply Ascii.eqb_eq in E; subst c; discriminate H.
Qed.

Lemma parseInt_not_numeric (s : string) :
  startsNumeric s = false -> parseInt s = nan.
Proof.
  unfold startsNumeric, parseInt.
  destruct (readSign (trimStart s)) as [neg s2]; cbn [snd].
  destruct s2 as [|c t]; [reflexivity|].
  intro H; rewrite (readRadix_not_decimal c t H).
  cbn [readDigits]; rewrite (digitValue_not_decimal c H); reflexivity.
Qed.

End HotspotsProofs.

(** ** Proofs: the hotspot generator on stored reports *)

Module RawHotspotsProofs.

Import Js Hotspots RawHotspots RawHotspotsSpec HotspotsProofs.

(** *** Calls that can throw *)

Lemma filterM_returns {A : Type} (f : A -> Completion bool) (l : list A) :
  (forall x, In x l -> exists b, f x = Returns b) ->
  filterM f l = Returns (filter (fun x => result false (f x)) l).
Proof.
  induction l as [|a l IH]; intro H; [reflexivity|].
  cbn [filterM filter].
  destruct (H a (or_introl eq_refl)) as [b Hb]; rewrite Hb; cbn [bind result].
  rewrite IH by (intros x Hx; apply H; right; exact Hx); cbn [bind].
  destruct b; reflexivity.
Qed.

Lemma filterM_throws {A : Type} (f : A -> Completion bool) (l : list A) (x : A) :
  In x l -> f x = Throws TypeError -> filterM f l = Throws TypeError.
Proof.
  induction l as [|a l IH]; intros Hin Hx; [destruct Hin|].
  cbn [filterM].
  destruct (f a) as [b|e] eqn:Ea; cbn [bind].
  - destruct Hin as [->|Hin]; [rewrite Hx in Ea; discriminate Ea|].
    rewrite (IH Hin Hx); reflexivity.
  - destruct e; reflexivity.
Qed.

Lemma filterM_keeps {A : Type} (f : A -> Completion bool) (l : list A) (x : A) :
  forall kept,
    filterM f l = Returns kept -> In x l -> f x = Returns true -> In x kept.
Proof.
  induction l as [|a l IH]; intros kept H Hin Hx; [destruct Hin|].
  cbn [filterM] in H.
  destruct (f a) as [b|e] eqn:Ea; cbn [bind] in H; [|discriminate H].
  destruct (filterM f l) as [rest|e] eqn:El; cbn [bind] in H; [|discriminate H].
  injection H as <-.
  destruct Hin as [->|Hin].
  - rewrite Hx in Ea; injection Ea as <-; left; reflexivity.
  - pose proof (IH rest eq_refl Hin Hx) as Hr.
    destruct b; [right|]; exact Hr.
Qed.

Lemma reduceM_returns {A B : Type} (f : B -> A -> Completion B) (l : list A) :
  (forall acc x, In x l -> exists b, f acc x = Returns b) ->
  forall acc, exists b, reduceM f l acc = Returns b.
Proof.
  induction l as [|a l IH]; intros H acc; [eexists; reflexivity|].
  cbn [reduceM].
  destruct (H acc a (or_introl eq_refl)) as [b Hb]; rewrite Hb; cbn [bind].
  apply IH; intros acc' x Hx; apply H; right; exact Hx.
Qed.

Lemma mapM_related {A B : Type} (f : A -> Completion B) (R : A -> B -> Prop)
    (l : list A) :
  (forall x, In x l -> exists y, f x = Returns y /\ R x y) ->
  exists ys,
    mapM f l = Returns ys
    /\ (forall y, In y ys -> exists x, In x l /\ R x y)
    /\ (forall x, In x l -> exists y, In y ys /\ R x y).
Proof.
  induction l as [|a l IH]; intro H.
  - exists []; split; [reflexivity|]; split; intros ? [].
  - destruct (H a (or_introl eq_refl)) as (b & Hb & Rb).
    destruct IH as (ys & Hys & H1 & H2);
      [intros x Hx; apply H; right; exact Hx|].
    exists (b :: ys); cbn [mapM]; rewrite Hb; cbn [bind]; rewrite Hys; cbn [bind].
    split; [reflexivity|]; split.
    + intros y [<-|Hy]; [exists a; split; [left; reflexivity | exact Rb]|].
      destruct (H1 y Hy) as (x & Hx & Rx); exists x; split; [right|]; assumption.
    + intros x [<-|Hx]; [exists b; split; [left; reflexivity | exact Rb]|].
      destruct (H2 x Hx) as (y & Hy & Ry); exists y; split; [right|]; assumption.
Qed.

Lemma filterM_returned {A : Type} (f : A -> Completion bool) (l : list A) :
  forall kept,
    filterM f l = Returns kept ->
    kept = filter (fun x => result false (f x)) l.
Proof.
  induction l as [|a l IH]; intros kept H.
  - injection H as <-; reflexivity.
  - cbn [filterM] in H.
    destruct (f a) as [b|e] eqn:Ea; cbn [bind] in H; [|discriminate H].
    destruct (filterM f l) as [rest|e] eqn:El; cbn [bind] in H; [|discriminate H].
    injection H as <-; cbn [filter]; rewrite Ea; cbn [result].
    rewrite (IH rest eq_refl); reflexivity.
Qed.

Lemma mapM_returned {A B : Type} (f : A -> Completion B) (l : list A) :
  forall ys,
    mapM f l = Returns ys -> forall x, In x l -> exists y, f x = Returns y.
Proof.
  induction l as [|a l IH]; intros ys H x Hx; [destruct Hx|].
  cbn [mapM] in H.
  destruct (f a) as [b|e] eqn:Ea; cbn [bind] in H; [|discriminate H].
  destruct (mapM f l) as [rest|e] eqn:El; cbn [bind] in H; [|discriminate H].
  destruct Hx as [<-|Hx]; [exists b; exact Ea|].
  exact (IH rest eq_refl x Hx).
Qed.

Lemma reduceM_returned {A : Type} (g : A -> Completion float) (l : list A) :
  forall acc total,
    reduceM (fun sum r => bind (g r) (fun n => Returns (sum + n)%float)) l acc
    = Returns total ->
    forall x, In x l -> exists n, g x = Returns n.
Proof.
  induction l as [|a l IH]; intros acc total H x Hx; [destruct Hx|].
  cbn [reduceM] in H.
  destruct (g a) as [n|e] eqn:Ea; cbn [bind] in H; [|discriminate H].
  destruct Hx as [<-|Hx]; [exists n; exact Ea|].
  exact (IH _ total H x Hx).
Qed.

(** *** The grouping pass *)

Section Grouping.

Variable A : Type.
Variable key : A -> Key.

Lemma lookupIn_pushInto (q : Key) (r : A) (clusters : list (Key * list A)) (k : Key) :
  lookupIn k (pushInto q r clusters)
  = if Key_eqb q k
    then Some (match lookupIn k clusters with
               | Some members => members ++ [r]
               | None => [r]
               end)
    else lookupIn k clusters.
Proof.
  induction clusters as [|[k' members] clusters IH]; [reflexivity|].
  cbn [pushInto lookupIn].
  destruct (Key_eqb k' q) eqn:E1.
  - apply Key_eqb_eq in E1; subst k'.
    cbn [lookupIn]; destruct (Key_eqb q k); reflexivity.
  - cbn [lookupIn]; destruct (Key_eqb k' k) eqn:E2.
    + apply Key_eqb_eq in E2; subst k'.
      assert (E3 : Key_eqb q k = false).
      { apply Key_eqb_neq; intros ->; rewrite Key_eqb_refl in E1; discriminate. }
      rewrite E3; reflexivity.
    + exact IH.
Qed.

Lemma lookupIn_grouped (l : list A) :
  forall (clusters : list (Key * list A)) (k : Key),
    lookupIn k (fold_left (fun cs r => pushInto (key r) r cs) l clusters)
    = extendWith (lookupIn k clusters) (filter (fun r => Key_eqb (key r) k) l).
Proof.
  induction l as [|r l IH]; intros clusters k; [reflexivity|].
  cbn [fold_left filter]; rewrite IH.
  rewrite lookupIn_pushInto.
  destruct (Key_eqb (key r) k); [|reflexivity].
  destruct (lookupIn k clusters), (filter _ l); cbn [extendWith app];
    rewrite <- ?app_assoc; reflexivity.
Qed.

Lemma pushInto_keys (q : Key) (r : A) (clusters : list (Key * list A)) (k : Key) :
  In k (map fst (pushInto q r clusters)) -> k = q \/ In k (map fst clusters).
Proof.
  induction clusters as [|[k' members] clusters IH]; cbn [pushInto].
  - cbn; intros [<-|[]]; left; reflexivity.
  - destruct (Key_eqb k' q); cbn [map fst In].
    + intros [H|H]; right; [left | right]; exact H.
    + intros [H|H]; [right; left; exact H|].
      destruct (IH H) as [H'|H']; [left | right; right]; exact H'.
Qed.

Lemma pushInto_NoDup (q : Key) (r : A) (clusters : list (Key * list A)) :
  NoDup (map fst clusters) -> NoDup (map fst (pushInto q r clusters)).
Proof.
  induction clusters as [|[k' members] clusters IH]; cbn [pushInto]; intro H.
  - cbn; constructor; [intros [] | constructor].
  - inversion H as [|? ? Hk Hrest]; subst.
    destruct (Key_eqb k' q) eqn:E; cbn [map fst].
    + constructor; assumption.
    + constructor; [|exact (IH Hrest)].
      intro Hin; apply pushInto_keys in Hin; destruct Hin as [->|Hin].
      * rewrite Key_eqb_refl in E; discriminate.
      * exact (Hk Hin).
Qed.

Lemma grouped_NoDup (l : list A) :
  forall clusters,
    NoDup (map fst clusters) ->
    NoDup (map fst (fold_left (fun cs r => pushInto (key r) r cs) l clusters)).
Proof.
  induction l as [|r l IH]; intros clusters H; [exact H|].
  cbn [fold_left]; apply IH, pushInto_NoDup, H.
Qed.

Lemma In_lookupIn (clusters : list (Key * list A)) (k : Key) (members : list A) :
  NoDup (map fst clusters) ->
  (In (k, members) clusters <-> lookupIn k clusters = Some members).
Proof.
  induction clusters as [|[k' ms] clusters IH]; intro H.
  - cbn; split; [intros [] | discriminate].
  - inversion H as [|? ? Hk Hrest]; subst.
    cbn [In lookupIn]; split.
    + intros [E|Hin].
      * injection E as -> ->; rewrite Key_eqb_refl; reflexivity.
      * assert (E : Key_eqb k' k = false).
        { apply Key_eqb_neq; intros ->; apply Hk.
          apply (in_map fst) in Hin; exact Hin. }
        rewrite E; apply IH; assumption.
    + destruct (Key_eqb k' k) eqn:E.
      * apply Key_eqb_eq in E; subst k'.
        intro E; injection E as ->; left; reflexivity.
      * intro Hl; right; apply IH; assumption.
Qed.

(** A cluster holds exactly the grouped reports of its cell, in their
    order; there is a cluster for each cell that has such a report. *)
Lemma grouped_members (l : list A) (k : Key) (members : list A) :
  In (k, members) (fold_left (fun cs r => pushInto (key r) r cs) l [])
  <-> members = filter (fun r => Key_eqb (key r) k) l /\ members <> [].
Proof.
  rewrite In_lookupIn by (apply grouped_NoDup; constructor).
  rewrite lookupIn_grouped; cbn [lookupIn].
  destruct (filter (fun r => Key_eqb (key r) k) l) as [|r t];
    cbn [extendWith]; split.
  - discriminate.
  - intros [-> H]; contradiction.
  - intro H; injection H as <-; split; [reflexivity | discriminate].
  - intros [-> _]; reflexivity.
Qed.

End Grouping.

(** *** Conversions *)

Section Pass.

Variable builtins : Builtins.

Lemma ToPrimitive_convertible (v : Value) :
  convertible v = true -> exists p, ToPrimitive v = Returns p.
Proof.
  destruct v as [| |s|x|b|r [s|]]; intro H; try discriminate H;
    eexists; reflexivity.
Qed.

Lemma ToPrimitive_throws (v : Value) :
  convertible v = false -> ToPrimitive v = Throws TypeError.
Proof.
  destruct v as [| |s|x|b|r [s|]]; intro H; try discriminate H; reflexivity.
Qed.

Lemma ToNumber_convertible (v : Value) :
  convertible v = true -> exists x, ToNumber builtins v = Returns x.
Proof.
  intro H; destruct (ToPrimitive_convertible v H) as [p Hp].
  unfold ToNumber; rewrite Hp; eexists; reflexivity.
Qed.

Lemma ToString_convertible (v : Value) :
  convertible v = true -> exists s, ToString builtins v = Returns s.
Proof.
  intro H; destruct (ToPrimitive_convertible v H) as [p Hp].
  unfold ToString; rewrite Hp; eexists; reflexivity.
Qed.

Lemma getTime_convertible (v : Value) :
  convertible v = true -> exists t, getTime builtins v = Returns t.
Proof.
  intro H; destruct (ToPrimitive_convertible v H) as [p Hp].
  unfold getTime; rewrite Hp; eexists; reflexivity.
Qed.

Lemma plus_convertible (sum : Primitive) (v : Value) :
  convertible v = true -> exists p, plus builtins sum v = Returns p.
Proof.
  intro H; destruct (ToPrimitive_convertible v H) as [p Hp].
  unfold plus; rewrite Hp; eexists; reflexivity.
Qed.

Lemma convertibleReport_fields (r : RawReport.t) :
  convertibleReport r = true ->
  convertible (RawReport.timestamp r) = true
  /\ convertible (RawReport.latitude r) = true
  /\ convertible (RawReport.longitude r) = true
  /\ convertible (RawReport.severity r) = true
  /\ convertible (RawReport.peopleAffected r) = true.
Proof.
  unfold convertibleReport; rewrite !andb_true_iff; tauto.
Qed.

Lemma inWindow_convertible (now : float) (r : RawReport.t) :
  convertible (RawReport.timestamp r) = true ->
  exists b, inWindow builtins now r = Returns b.
Proof.
  intro H; destruct (getTime_convertible _ H) as [t Ht].
  unfold inWindow; rewrite Ht; eexists; reflexivity.
Qed.

Lemma cellKey_convertible (r : RawReport.t) :
  convertible (RawReport.latitude r) = true ->
  convertible (RawReport.longitude r) = true ->
  exists k, cellKey builtins r = Returns k.
Proof.
  intros H1 H2.
  destruct (ToNumber_convertible _ H1) as [x Hx].
  destruct (ToNumber_convertible _ H2) as [y Hy].
  unfold cellKey; rewrite Hx, Hy; eexists; reflexivity.
Qed.

Lemma cellKey_throws (r : RawReport.t) :
  convertible (RawReport.latitude r) = false
  \/ convertible (RawReport.longitude r) = false ->
  cellKey builtins r = Throws TypeError.
Proof.
  intros [H|H]; unfold cellKey, ToNumber;
    rewrite (ToPrimitive_throws _ H).
  - reflexivity.
  - destruct (ToPrimitive (RawReport.latitude r)) as [p|[]]; reflexivity.
Qed.

Lemma cellKeyOf_returned (r : RawReport.t) (k : Key) :
  cellKey builtins r = Returns k -> cellKeyOf builtins r = k.
Proof. intro H; unfold cellKeyOf; rewrite H; reflexivity. Qed.

Lemma groupReports_returns (l : list RawReport.t) :
  forall clusters,
    (forall r, In r l -> exists k, cellKey builtins r = Returns k) ->
    groupReports builtins l clusters
    = Returns (fold_left (fun cs r => pushInto (cellKeyOf builtins r) r cs) l clusters).
Proof.
  induction l as [|r l IH]; intros clusters H; [reflexivity|].
  cbn [groupReports fold_left].
  destruct (H r (or_introl eq_refl)) as [k Hk].
  rewrite (cellKeyOf_returned r k Hk), Hk; cbn [bind].
  apply IH; intros x Hx; apply H; right; exact Hx.
Qed.

Lemma groupReports_throws (l : list RawReport.t) (r : RawReport.t) :
  forall clusters,
    In r l -> cellKey builtins r = Throws TypeError ->
    groupReports builtins l clusters = Throws TypeError.
Proof.
  induction l as [|a l IH]; intros clusters Hin Hr; [destruct Hin|].
  cbn [groupReports].
  destruct (cellKey builtins a) as [k|e] eqn:Ea; cbn [bind].
  - destruct Hin as [->|Hin]; [rewrite Hr in Ea; discriminate Ea|].
    apply IH; assumption.
  - destruct e; reflexivity.
Qed.

Lemma groupReports_returned (l : list RawReport.t) :
  forall clusters grouped,
    groupReports builtins l clusters = Returns grouped ->
    grouped = fold_left (fun cs r => pushInto (cellKeyOf builtins r) r cs) l clusters.
Proof.
  induction l as [|r l IH]; intros clusters grouped H.
  - injection H as <-; reflexivity.
  - cbn [groupReports] in H.
    destruct (cellKey builtins r) as [k|e] eqn:Ek; cbn [bind] in H; [|discriminate H].
    cbn [fold_left]; rewrite (cellKeyOf_returned r k Ek).
    exact (IH _ grouped H).
Qed.

Lemma ToString_throws (v : Value) :
  convertible v = false -> ToString builtins v = Throws TypeError.
Proof.
  intro H; unfold ToString; rewrite (ToPrimitive_throws v H); reflexivity.
Qed.

(** Under the hypothesis that the converted properties have primitive
    values, the clusters are those of the cells. *)
Lemma locationClusters_returns (now : float) (reports : list RawReport.t) :
  (forall r, In r reports -> convertibleReport r = true) ->
  exists clusters,
    locationClusters builtins now reports = Returns clusters
    /\ forall k members,
         In (k, members) clusters
         <-> members = cellMembers builtins now reports k /\ members <> [].
Proof.
  intro Hall; unfold locationClusters.
  rewrite filterM_returns.
  2:{ intros r Hr; apply inWindow_convertible.
      apply convertibleReport_fields, Hall, Hr. }
  cbn [bind]; fold (inWindowOf builtins now).
  rewrite groupReports_returns.
  2:{ intros r Hr; apply filter_In in Hr; destruct Hr as [Hr _].
      destruct (convertibleReport_fields r (Hall r Hr)) as (_ & H1 & H2 & _).
      apply cellKey_convertible; assumption. }
  eexists; split; [reflexivity|].
  intros k members; apply grouped_members.
Qed.

(** *** One hotspot *)

Lemma average_returns (coordinate : RawReport.t -> Value)
    (clusterReports : list RawReport.t) :
  (forall r, In r clusterReports -> convertible (coordinate r) = true) ->
  exists x, average builtins coordinate clusterReports = Returns x.
Proof.
  intro H; unfold average.
  destruct (reduceM_returns (fun sum r => plus builtins sum (coordinate r))
              clusterReports) with (acc := PNum 0) as [p Hp].
  { intros acc r Hr; apply plus_convertible, H, Hr. }
  rewrite Hp; eexists; reflexivity.
Qed.

Lemma weightOf_returns (r : RawReport.t) :
  convertible (RawReport.severity r) = true ->
  exists w, weightOf builtins r = Returns w.
Proof.
  intro H; destruct (ToString_convertible _ H) as [s Hs].
  unfold weightOf; rewrite Hs; eexists; reflexivity.
Qed.

Lemma peopleOf_returns (r : RawReport.t) :
  convertible (RawReport.peopleAffected r) = true ->
  exists n, peopleOf builtins r = Returns n.
Proof.
  intro H; destruct (ToString_convertible _ H) as [s Hs].
  unfold peopleOf; rewrite Hs; eexists; reflexivity.
Qed.

Lemma makeHotspot_returns (k : Key) (clusterReports : list RawReport.t) :
  (forall r, In r clusterReports -> convertibleReport r = true) ->
  exists h,
    makeHotspot builtins (k, clusterReports) = Returns h
    /\ Hotspot.id h = k
    /\ Hotspot.reportCount h = List.length clusterReports
    /\ affectedPeople builtins clusterReports = Returns (Hotspot.affectedPeople h).
Proof.
  intro Hall.
  assert (F : forall r, In r clusterReports ->
                convertible (RawReport.timestamp r) = true
                /\ convertible (RawReport.latitude r) = true
                /\ convertible (RawReport.longitude r) = true
                /\ convertible (RawReport.severity r) = true
                /\ convertible (RawReport.peopleAffected r) = true)
    by (intros r Hr; apply convertibleReport_fields, Hall, Hr).
  destruct (average_returns RawReport.latitude clusterReports) as [avgLat H1];
    [intros r Hr; apply (F r Hr)|].
  destruct (average_returns RawReport.longitude clusterReports) as [avgLng H2];
    [intros r Hr; apply (F r Hr)|].
  destruct (reduceM_returns
              (fun score r => bind (weightOf builtins r)
                                (fun w => Returns (score + w)%float))
              clusterReports) with (acc := 0%float) as [score H3].
  { intros acc r Hr; destruct (weightOf_returns r) as [w Hw]; [apply (F r Hr)|].
    rewrite Hw; eexists; reflexivity. }
  destruct (mapM_related (fun r => getTime builtins (RawReport.timestamp r))
              (fun _ _ => True) clusterReports) as (times & H4 & _).
  { intros r Hr; destruct (getTime_convertible (RawReport.timestamp r)) as [t Ht];
      [apply (F r Hr)|].
    exists t; split; [exact Ht | exact I]. }
  destruct (reduceM_returns
              (fun sum r => bind (peopleOf builtins r)
                              (fun n => Returns (sum + n)%float))
              clusterReports) with (acc := 0%float) as [people H5].
  { intros acc r Hr; destruct (peopleOf_returns r) as [n Hn]; [apply (F r Hr)|].
    rewrite Hn; eexists; reflexivity. }
  unfold makeHotspot, severityScore, affectedPeople.
  rewrite H1, H2, H3, H4, H5; cbn [bind].
  eexists; split; [reflexivity|].
  cbn [Hotspot.id Hotspot.reportCount Hotspot.affectedPeople].
  repeat split.
Qed.

(** *** The pass *)

Lemma cellMembers_reports (now : float) (reports : list RawReport.t) (k : Key)
    (r : RawReport.t) :
  In r (cellMembers builtins now reports k) -> In r reports.
Proof.
  unfold cellMembers; intro H.
  apply filter_In in H; destruct H as [H _].
  apply filter_In in H; apply H.
Qed.

Lemma generateHotspots_returns (reports : list RawReport.t) (now : float) :
  (forall r, In r reports -> convertibleReport r = true) ->
  exists hotspots,
    generateHotspots builtins reports now = Returns hotspots
    /\ (forall h,
          In h hotspots ->
          2 <= List.length (cellMembers builtins now reports (Hotspot.id h))
          /\ Hotspot.reportCount h
             = List.length (cellMembers builtins now reports (Hotspot.id h))
          /\ affectedPeople builtins (cellMembers builtins now reports (Hotspot.id h))
             = Returns (Hotspot.affectedPeople h))
    /\ (forall k,
          2 <= List.length (cellMembers builtins now reports k) ->
          exists h, In h hotspots /\ Hotspot.id h = k).
Proof.
  intro Hall; unfold generateHotspots.
  destruct (locationClusters_returns now reports Hall) as (clusters & Hc & Hm).
  rewrite Hc; cbn [bind].
  destruct (mapM_related (makeHotspot builtins)
              (fun entry h =>
                 Hotspot.id h = fst entry
                 /\ Hotspot.reportCount h = List.length (snd entry)
                 /\ affectedPeople builtins (snd entry)
                    = Returns (Hotspot.affectedPeople h))
              (filter (fun entry => (2 <=? List.length (snd entry))%nat) clusters))
    as (hotspots & Hh & H1 & H2).
  { intros [k members] Hin.
    apply filter_In in Hin; destruct Hin as [Hin _].
    apply Hm in Hin; destruct Hin as [-> _].
    destruct (makeHotspot_returns k (cellMembers builtins now reports k))
      as (h & E & Hk).
    { intros r Hr; apply Hall, (cellMembers_reports now reports k r Hr). }
    exists h; split; [exact E | exact Hk]. }
  exists hotspots; split; [exact Hh|]; split.
  - intros h Hin.
    destruct (H1 h Hin) as ([k members] & He & Hid & Hn & Hp).
    cbn [fst snd] in Hid, Hn, Hp.
    apply filter_In in He; destruct He as [He Hlen]; cbn [snd] in Hlen.
    apply Hm in He; destruct He as [-> _].
    rewrite Hid; split; [apply Nat.leb_le, Hlen|]; split; assumption.
  - intros k Hlen.
    destruct (H2 (k, cellMembers builtins now reports k)) as (h & Hin & Hid & _).
    { apply filter_In; split; [|apply Nat.leb_le, Hlen].
      apply Hm; split; [reflexivity|].
      intro E; rewrite E in Hlen; simpl in Hlen; lia. }
    exists h; split; [exact Hin | exact Hid].
Qed.

Lemma generateHotspots_throws_timestamp (reports : list RawReport.t) (now : float)
    (r : RawReport.t) :
  In r reports -> convertible (RawReport.timestamp r) = false ->
  generateHotspots builtins reports now = Throws TypeError.
Proof.
  intros Hin H; unfold generateHotspots, locationClusters.
  rewrite (filterM_throws _ reports r Hin); [reflexivity|].
  unfold inWindow, getTime; rewrite (ToPrimitive_throws _ H); reflexivity.
Qed.

Lemma generateHotspots_throws_coordinate (reports : list RawReport.t) (now : float)
    (r : RawReport.t) :
  In r reports -> inWindow builtins now r = Returns true ->
  convertible (RawReport.latitude r) = false
  \/ convertible (RawReport.longitude r) = false ->
  generateHotspots builtins reports now = Throws TypeError.
Proof.
  intros Hin Hw H; unfold generateHotspots, locationClusters.
  destruct (filterM (inWindow builtins now) reports) as [recent|e] eqn:E;
    cbn [bind]; [|destruct e; reflexivity].
  rewrite (groupReports_throws recent r); [reflexivity| |].
  - exact (filterM_keeps _ reports r recent E Hin Hw).
  - apply cellKey_throws, H.
Qed.

Lemma generateHotspots_throws_member (reports : list RawReport.t) (now : float)
    (r : RawReport.t) (k : Key) :
  In r reports ->
  inWindow builtins now r = Returns true ->
  cellKey builtins r = Returns k ->
  2 <= List.length (cellMembers builtins now reports k) ->
  convertible (RawReport.severity r) = false
  \/ convertible (RawReport.peopleAffected r) = false ->
  generateHotspots builtins reports now = Throws TypeError.
Proof.
  intros Hin Hw Hk Hlen Hbad.
  destruct (generateHotspots builtins reports now) as [hotspots|e] eqn:E;
    [exfalso | destruct e; reflexivity].
  unfold generateHotspots, locationClusters in E.
  destruct (filterM (inWindow builtins now) reports) as [recent|e] eqn:Ef;
    cbn [bind] in E; [|discriminate E].
  apply filterM_returned in Ef; fold (inWindowOf builtins now) in Ef.
  destruct (groupReports builtins recent []) as [clusters|e] eqn:Eg;
    cbn [bind] in E; [|discriminate E].
  apply groupReports_returned in Eg; subst recent.
  assert (Hc : In (k, cellMembers builtins now reports k)
                 (filter (fun entry => (2 <=? List.length (snd entry))%nat) clusters)).
  { apply filter_In; split; [|apply Nat.leb_le, Hlen].
    rewrite Eg; apply grouped_members; split; [reflexivity|].
    intro E0; rewrite E0 in Hlen; simpl in Hlen; lia. }
  destruct (mapM_returned _ _ hotspots E _ Hc) as [h Hh]; clear E.
  assert (Hr : In r (cellMembers builtins now reports k)).
  { unfold cellMembers; apply filter_In; split.
    - apply filter_In; split; [exact Hin|].
      unfold inWindowOf; rewrite Hw; reflexivity.
    - rewrite (cellKeyOf_returned r k Hk); apply Key_eqb_refl. }
  unfold makeHotspot in Hh.
  destruct (average builtins RawReport.latitude _) as [avgLat|e];
    cbn [bind] in Hh; [|discriminate Hh].
  destruct (average builtins RawReport.longitude _) as [avgLng|e];
    cbn [bind] in Hh; [|discriminate Hh].
  destruct (severityScore builtins _) as [score|e] eqn:Es;
    cbn [bind] in Hh; [|discriminate Hh].
  destruct (mapM _ _) as [times|e]; cbn [bind] in Hh; [|discriminate Hh].
  destruct (affectedPeople builtins _) as [people|e] eqn:Ep;
    cbn [bind] in Hh; [|discriminate Hh].
  destruct Hbad as [Hbad|Hbad].
  - destruct (reduceM_returned _ _ _ _ Es r Hr) as [w Hw'].
    unfold weightOf in Hw'; rewrite (ToString_throws _ Hbad) in Hw'.
    discriminate Hw'.
  - destruct (reduceM_returned _ _ _ _ Ep r Hr) as [n Hn].
    unfold peopleOf in Hn; rewrite (ToString_throws _ Hbad) in Hn.
    discriminate Hn.
Qed.
End Pass.

(** *** Malformed fields *)

Lemma peopleOf_not_numeric (builtins : Builtins) (r : RawReport.t) (s : string) :
  ToString builtins (RawReport.peopleAffected r) = Returns s ->
  HotspotsSpec.startsNumeric s = false ->
  peopleOf builtins r = Returns 0%float.
Proof.
  intros Hs Hn; unfold peopleOf; rewrite Hs; cbn [bind].
  rewrite (parseInt_not_numeric s Hn); reflexivity.
Qed.




(** *** Reports with numbers for coordinates *)

Section Numbers.

Variable builtins : Builtins.

Lemma inWindow_ofReport (now : float) (r : Report.t) :
  TimeClip (Report.timestamp r) = Report.timestamp r ->
  inWindow builtins now (ofReport r) = Returns (Hotspots.inWindow now r).
Proof.
  intro H; unfold inWindow, getTime, Hotspots.inWindow.
  cbn [ofReport RawReport.timestamp ToPrimitive bind numberOf].
  rewrite H; reflexivity.
Qed.

Lemma cellKey_ofReport (r : Report.t) :
  cellKey builtins (ofReport r) = Returns (Hotspots.cellKey r).
Proof.
  unfold cellKey, Hotspots.cellKey, ToNumber.
  cbn [ofReport RawReport.latitude RawReport.longitude].
  destruct (Report.latitude r), (Report.longitude r); reflexivity.
Qed.

Lemma filterM_ofReport (now : float) (l : list Report.t) :
  (forall r, In r l -> TimeClip (Report.timestamp r) = Report.timestamp r) ->
  filterM (inWindow builtins now) (map ofReport l)
  = Returns (map ofReport (filter (Hotspots.inWindow now) l)).
Proof.
  induction l as [|r l IH]; intro H; [reflexivity|].
  cbn [map filterM filter].
  rewrite (inWindow_ofReport now r (H r (or_introl eq_refl))); cbn [bind].
  rewrite IH by (intros x Hx; apply H; right; exact Hx); cbn [bind].
  destruct (Hotspots.inWindow now r); reflexivity.
Qed.

Lemma pushInto_ofReport (k : Key) (r : Report.t)
    (clusters : list (Key * list Report.t)) :
  pushInto k (ofReport r) (map ofCluster clusters)
  = map ofCluster (pushReport k r clusters).
Proof.
  induction clusters as [|[k' members] clusters IH]; [reflexivity|].
  cbn [map pushReport]; unfold ofCluster at 1; cbn [fst snd pushInto].
  destruct (Key_eqb k' k); cbn [map].
  - unfold ofCluster at 2; cbn [fst snd]; rewrite map_app; reflexivity.
  - rewrite IH; reflexivity.
Qed.

Lemma groupReports_ofReport (l : list Report.t) :
  forall clusters,
    groupReports builtins (map ofReport l) (map ofCluster clusters)
    = Returns (map ofCluster (fold_left addReport l clusters)).
Proof.
  induction l as [|r l IH]; intro clusters; [reflexivity|].
  cbn [map groupReports fold_left].
  rewrite cellKey_ofReport; cbn [bind].
  unfold addReport at 2; rewrite pushInto_ofReport; apply IH.
Qed.

Lemma filter_ofCluster (clusters : list (Key * list Report.t)) :
  filter (fun entry => (2 <=? List.length (snd entry))%nat) (map ofCluster clusters)
  = map ofCluster
      (filter (fun entry => (2 <=? List.length (snd entry))%nat) clusters).
Proof.
  induction clusters as [|[k members] clusters IH]; [reflexivity|].
  cbn [map filter ofCluster fst snd]; rewrite length_map, IH.
  destruct (2 <=? List.length members)%nat; reflexivity.
Qed.

Lemma reduceM_coordinates (raw : RawReport.t -> Value)
    (coordinate : Report.t -> option float) (l : list Report.t) :
  (forall r, raw (ofReport r) = ofOptionalNumber (coordinate r)) ->
  forall acc,
    reduceM (fun sum r => plus builtins sum (raw r)) (map ofReport l) (PNum acc)
    = Returns (PNum (fold_left (fun sum r => sum + toNumberOpt (coordinate r))%float
                       l acc)).
Proof.
  intro H; induction l as [|r l IH]; intro acc; [reflexivity|].
  cbn [map reduceM fold_left]; rewrite H.
  destruct (coordinate r); cbn [ofOptionalNumber plus ToPrimitive bind numberOf
                                 toNumberOpt]; apply IH.
Qed.

Lemma weightOf_ofReport (r : Report.t) :
  weightOf builtins (ofReport r) = Returns (Hotspots.weightOf r).
Proof.
  unfold weightOf, Hotspots.weightOf, ToString.
  cbn [ofReport RawReport.severity].
  destruct (Report.severity r); reflexivity.
Qed.

Lemma peopleOf_ofReport (r : Report.t) :
  peopleOf builtins (ofReport r) = Returns (Hotspots.peopleOf r).
Proof.
  unfold peopleOf, Hotspots.peopleOf, ToString.
  cbn [ofReport RawReport.peopleAffected].
  destruct (Report.peopleAffected r); reflexivity.
Qed.

Lemma reduceM_sum (f : RawReport.t -> Completion float) (g : Report.t -> float)
    (l : list Report.t) :
  (forall r, f (ofReport r) = Returns (g r)) ->
  forall acc,
    reduceM (fun sum r => bind (f r) (fun n => Returns (sum + n)%float))
      (map ofReport l) acc
    = Returns (fold_left (fun sum r => (sum + g r)%float) l acc).
Proof.
  intro H; induction l as [|r l IH]; intro acc; [reflexivity|].
  cbn [map reduceM fold_left]; rewrite H; cbn [bind]; apply IH.
Qed.

Lemma getTime_ofReport (l : list Report.t) :
  (forall r, In r l -> TimeClip (Report.timestamp r) = Report.timestamp r) ->
  mapM (fun r => getTime builtins (RawReport.timestamp r)) (map ofReport l)
  = Returns (map Report.timestamp l).
Proof.
  induction l as [|r l IH]; intro H; [reflexivity|].
  cbn [map mapM]; unfold getTime at 1.
  cbn [ofReport RawReport.timestamp ToPrimitive bind numberOf].
  rewrite (H r (or_introl eq_refl)).
  rewrite IH by (intros x Hx; apply H; right; exact Hx); reflexivity.
Qed.

Lemma makeHotspot_ofCluster (entry : Key * list Report.t) :
  (forall r, In r (snd entry) ->
             TimeClip (Report.timestamp r) = Report.timestamp r) ->
  makeHotspot builtins (ofCluster entry) = Returns (Hotspots.makeHotspot entry).
Proof.
  destruct entry as [k members]; cbn [snd]; intro H.
  unfold makeHotspot, ofCluster, average, severityScore, affectedPeople;
    cbn [fst snd].
  rewrite (reduceM_coordinates RawReport.latitude Report.latitude)
    by reflexivity.
  cbn [bind].
  rewrite (reduceM_coordinates RawReport.longitude Report.longitude)
    by reflexivity.
  cbn [bind].
  rewrite (reduceM_sum (weightOf builtins) Hotspots.weightOf)
    by apply weightOf_ofReport.
  cbn [bind].
  rewrite (getTime_ofReport members H); cbn [bind].
  rewrite (reduceM_sum (peopleOf builtins) Hotspots.peopleOf)
    by apply peopleOf_ofReport.
  cbn [bind numberOf].
  rewrite length_map, map_map; reflexivity.
Qed.

(** On reports whose coordinates are numbers or absent, whose other
    properties are texts or absent and whose [timestamp] is a time value,
    the pass does not throw and gives the hotspots of
    [Hotspots.generateHotspots]. *)
Lemma generateHotspots_ofReport (reports : list Report.t) (now : float) :
  (forall r, In r reports -> TimeClip (Report.timestamp r) = Report.timestamp r) ->
  generateHotspots builtins (map ofReport reports) now
  = Returns (Hotspots.generateHotspots reports now).
Proof.
  intro H; unfold generateHotspots, locationClusters.
  rewrite (filterM_ofReport now reports H); cbn [bind].
  rewrite (groupReports_ofReport _ []); cbn [bind].
  rewrite filter_ofCluster.
  unfold Hotspots.generateHotspots.
  fold (Hotspots.locationClusters now reports).
  set (kept := filter _ (Hotspots.locationClusters now reports)).
  assert (Hk : forall entry, In entry kept ->
                 forall r, In r (snd entry) ->
                   TimeClip (Report.timestamp r) = Report.timestamp r).
  { intros [k members] Hin r Hr; cbn [snd] in Hr.
    apply filter_In in Hin; destruct Hin as [Hin _].
    apply clusters_members in Hin; destruct Hin as [-> _].
    unfold HotspotsSpec.cellMembers in Hr.
    apply filter_In in Hr; destruct Hr as [Hr _].
    apply filter_In in Hr; apply H, Hr. }
  clearbody kept; induction kept as [|entry kept IH]; [reflexivity|].
  cbn [map mapM].
  rewrite (makeHotspot_ofCluster entry (Hk entry (or_introl eq_refl))); cbn [bind].
  rewrite IH by (intros e He; apply Hk; right; exact He); reflexivity.
Qed.

End Numbers.

End RawHotspotsProofs.

(** ** The risk model *)

Module OceanMonitorAPIProofs.

Import Js OceanMonitorAPI.

Section Timeframe.

Variable Math_sin Math_cos Math_sqrt : float -> float.
Variable Math_atan2 : float -> float -> float.

(** C8: the [timeframe] argument of [assessRisk] is inert. For every list
    of active hazards and every location, two calls that differ in the
    [timeframe] argument (given or left out) and in the time of the call
    return the same overall risk, risk level, per-factor weights and
    recommendations. *)
Theorem assessRisk_timeframe_inert
    (hazards : list Hazard.t) (loc : Location)
    (timeframe1 timeframe2 : option float) (clock1 clock2 : string) :
  let a1 :=
    assessRisk Math_sin Math_cos Math_sqrt Math_atan2 hazards clock1 loc timeframe1 in
  let a2 :=
    assessRisk Math_sin Math_cos Math_sqrt Math_atan2 hazards clock2 loc timeframe2 in
  overallRisk a1 = overallRisk a2
  /\ riskLevel a1 = riskLevel a2
  /\ factors a1 = factors a2
  /\ recommendations a1 = recommendations a2.
Proof.
  repeat split.
Qed.

End Timeframe.

End OceanMonitorAPIProofs.

(** ** Facts about numbers *)

Module NumberFacts.

Import Js Notions.

Lemma leibniz_eqb_eq (x y : float) : PrimFloat.Leibniz.eqb x y = true -> x = y.
Proof. apply FloatAxioms.Leibniz.eqb_spec. Qed.

(** Rounding keeps the sign it is given. *)
Lemma binary_round_aux_sign (sx : bool) (mx ex : Z) (lx : location) :
  match binary_round_aux prec emax sx mx ex lx with
  | S754_nan => True
  | S754_zero s => s = sx
  | S754_infinity s => s = sx
  | S754_finite s _ _ => s = sx
  end.
Proof.
  unfold binary_round_aux.
  destruct (shr_fexp prec emax mx ex lx) as [mrs' e'].
  destruct (shr_fexp prec emax _ e' loc_Exact) as [mrs'' e''].
  destruct (shr_m mrs''); [reflexivity | | exact I].
  destruct (e'' <=? emax - prec)%Z; reflexivity.
Qed.

Lemma binary_round_sign (sx : bool) (mx : positive) (ex : Z) :
  match binary_round prec emax sx mx ex with
  | S754_nan => True
  | S754_zero s => s = sx
  | S754_infinity s => s = sx
  | S754_finite s _ _ => s = sx
  end.
Proof.
  unfold binary_round.
  destruct (shl_align mx ex _) as [mz ez].
  apply binary_round_aux_sign.
Qed.

Lemma SFadd_notNegative (x y : spec_float) :
  match x with
  | S754_nan => True
  | S754_zero s | S754_infinity s | S754_finite s _ _ => s = false
  end ->
  match y with
  | S754_nan => True
  | S754_zero s | S754_infinity s | S754_finite s _ _ => s = false
  end ->
  match SFadd prec emax x y with
  | S754_nan => True
  | S754_zero s | S754_infinity s | S754_finite s _ _ => s = false
  end.
Proof.
  destruct x as [sx|sx| |sx mx ex], y as [sy|sy| |sy my ey];
    cbn [SFadd]; intros Hx Hy; subst; try exact I; try reflexivity.
  cbn [cond_Zopp Z.add].
  apply (binary_round_sign false).
Qed.

Lemma SFmul_notNegative (x y : spec_float) :
  match x with
  | S754_nan => True
  | S754_zero s | S754_infinity s | S754_finite s _ _ => s = false
  end ->
  match y with
  | S754_nan => True
  | S754_zero s | S754_infinity s | S754_finite s _ _ => s = false
  end ->
  match SFmul prec emax x y with
  | S754_nan => True
  | S754_zero s | S754_infinity s | S754_finite s _ _ => s = false
  end.
Proof.
  destruct x as [sx|sx| |sx mx ex], y as [sy|sy| |sy my ey];
    cbn [SFmul]; intros Hx Hy; subst; try exact I; try reflexivity.
  apply (binary_round_aux_sign false).
Qed.

Lemma notNegative_spec (x : float) :
  notNegative x = true <->
  match Prim2SF x with
  | S754_nan => True
  | S754_zero s | S754_infinity s | S754_finite s _ _ => s = false
  end.
Proof.
  unfold notNegative; destruct (Prim2SF x) as [s|s| |s m e];
    try destruct s; simpl; split; intro H; try reflexivity; try exact I;
    try discriminate H.
Qed.

Lemma add_notNegative (x y : float) :
  notNegative x = true -> notNegative y = true -> notNegative (x + y) = true.
Proof.
  rewrite !notNegative_spec, add_spec; apply SFadd_notNegative.
Qed.

Lemma mul_notNegative (x y : float) :
  notNegative x = true -> notNegative y = true -> notNegative (x * y) = true.
Proof.
  rewrite !notNegative_spec, mul_spec; apply SFmul_notNegative.
Qed.

Lemma is_nan_spec (x : float) :
  is_nan x = true <-> Prim2SF x = S754_nan.
Proof.
  unfold is_nan; rewrite eqb_spec; unfold SFeqb.
  destruct (Prim2SF x) as [s|s| |s m e]; cbn [SFcompare].
  - split; discriminate.
  - destruct s; split; discriminate.
  - split; reflexivity.
  - destruct s; rewrite Z.compare_refl, Pos.compare_cont_refl;
      split; discriminate.
Qed.

(** A number above +0 is not negative. *)
Lemma above_zero_notNegative (y : float) :
  (0 <? y)%float = true -> notNegative y = true.
Proof.
  rewrite ltb_spec, notNegative_spec; unfold SFltb.
  change (Prim2SF 0) with (S754_zero false).
  destruct (Prim2SF y) as [s|s| |s m e]; cbn [SFcompare];
    try destruct s; intro H; try reflexivity; try exact I; discriminate H.
Qed.

(** [Math.max(0, y)] is NaN or not negative. *)
Lemma Math_max_zero_notNegative (y : float) :
  notNegative (Math_max 0 y) = true.
Proof.
  unfold Math_max.
  destruct (is_nan 0 || is_nan y); [reflexivity|].
  destruct (0 <? y)%float eqn:E; [exact (above_zero_notNegative y E)|].
  destruct (y <? 0)%float; reflexivity.
Qed.

(** A number that is not negative and not NaN is at least +0. *)
Lemma notNegative_above (x : float) :
  notNegative x = true -> is_nan x = false -> (0 <=? x)%float = true.
Proof.
  intros Hx Hn.
  assert (Hn' : Prim2SF x <> S754_nan).
  { intro E; apply is_nan_spec in E; congruence. }
  apply notNegative_spec in Hx.
  rewrite leb_spec; unfold SFleb.
  change (Prim2SF 0) with (S754_zero false).
  destruct (Prim2SF x) as [s|s| |s m e]; cbn [SFcompare];
    try subst s; try reflexivity; contradiction.
Qed.

Lemma ltb_leb (x y : float) : (x <? y)%float = true -> (x <=? y)%float = true.
Proof.
  rewrite ltb_spec, leb_spec; unfold SFltb, SFleb.
  destruct (SFcompare (Prim2SF x) (Prim2SF y)) as [[]|]; congruence.
Qed.

Lemma compare_cont_swap (a b : positive) :
  Pos.compare_cont Eq a b = CompOpp (Pos.compare_cont Eq b a).
Proof. exact (Pos.compare_antisym b a). Qed.

(** A number that is neither below nor above 1, and not NaN, is at most 1. *)
Lemma not_apart_from_one (x : float) :
  is_nan x = false -> (1 <? x)%float = false -> (x <? 1)%float = false ->
  (x <=? 1)%float = true.
Proof.
  intros Hn.
  assert (Hn' : Prim2SF x <> S754_nan).
  { intro E; apply is_nan_spec in E; congruence. }
  rewrite !ltb_spec, leb_spec; unfold SFltb, SFleb.
  change (Prim2SF 1) with (S754_finite false 4503599627370496 (-52)).
  destruct (Prim2SF x) as [s|s| |s m e]; cbn [SFcompare];
    try destruct s; try discriminate; try contradiction.
  rewrite (Z.compare_antisym e (-52)).
  destruct (e ?= -52)%Z; cbn [CompOpp]; try discriminate.
  rewrite (compare_cont_swap 4503599627370496 m).
  destruct (Pos.compare_cont Eq m 4503599627370496); cbn [CompOpp];
    intros; try reflexivity; discriminate.
Qed.

(** [Math.min(1, x)] of a number that is not negative is NaN or lies in
    [0, 1]. *)
Lemma Math_min_one_unit (x : float) :
  notNegative x = true ->
  is_nan (Math_min 1 x) = true
  \/ ((0 <=? Math_min 1 x) && (Math_min 1 x <=? 1))%float = true.
Proof.
  intro Hx; unfold Math_min.
  change (is_nan 1) with false; cbn [orb].
  destruct (is_nan x) eqn:Hn; [left; reflexivity|].
  right.
  destruct (1 <? x)%float eqn:E1; [reflexivity|].
  destruct (x <? 1)%float eqn:E2.
  - rewrite (notNegative_above x Hx Hn), (ltb_leb _ _ E2); reflexivity.
  - change (get_sign 1) with false; cbv iota.
    rewrite (notNegative_above x Hx Hn), (not_apart_from_one x Hn E1 E2).
    reflexivity.
Qed.

(** A difference with NaN is below nothing. *)
Lemma sub_nan_not_below (x y : float) : (x - nan <? y)%float = false.
Proof.
  rewrite ltb_spec, sub_spec; unfold SFltb.
  change (Prim2SF nan) with S754_nan.
  destruct (Prim2SF x) as [s|s| |s m e]; reflexivity.
Qed.

End NumberFacts.

(** ** More on the text analysis *)

Module NLPEngineMore.

Import Js NLPEngine NLPEngineSpec NLPEngineProofs Server Notions NumberFacts.

(** *** Match counts *)

Lemma total_matches (lowerText : string) (entries : list (string * list string)) :
  list_sum (map (fun e => List.length (matchesIn lowerText (snd e))) entries)
  = List.length
      (filter (fun keyword => includes lowerText keyword) (flat_map snd entries)).
Proof.
  induction entries as [|e entries IH]; [reflexivity|].
  cbn [map flat_map]; rewrite filter_app, length_app, <- IH; reflexivity.
Qed.

Lemma hazardMatchCount_bound (text : string) :
  hazardMatchCount text <= List.length (flat_map snd hazardKeywords).
Proof. apply filter_length_le. Qed.

Lemma urgencyMatchCount_bound (text : string) :
  urgencyMatchCount text <= List.length urgencyKeywords.
Proof. apply filter_length_le. Qed.

Lemma confidence_table_all_counts :
  forallCounts (map (fun e => List.length (snd e)) hazardKeywords)
    (fun v =>
       PrimFloat.Leibniz.eqb
         (Math_min (confidenceFrom v 0) 1)
         (Math_min (ofNat (list_sum v) * 0.2)%float 1)) = true.
Proof. vm_compute; reflexivity. Qed.

Lemma confidence_by_count (text : string) :
  confidence (analyzeLower (toLowerCase text))
  = Math_min (ofNat (hazardMatchCount text) * 0.2)%float 1.
Proof.
  unfold analyzeLower; cbn [confidence].
  rewrite detect_confidence; cbn [confidence initialAnalysis].
  unfold hazardMatchCount; rewrite <- total_matches.
  apply leibniz_eqb_eq.
  apply (forallCounts_sound _ _ _ confidence_table_all_counts).
  apply match_counts_bounded.
Qed.

Lemma urgency_by_count (text : string) :
  urgencyLevel (analyzeLower (toLowerCase text))
  = Math_min (ofNat (urgencyMatchCount text) * 0.3)%float 1.
Proof. reflexivity. Qed.

Lemma no_category_no_keyword (lowerText : string)
    (entries : list (string * list string)) :
  filter (categoryMatches lowerText) entries = []
  <-> filter (fun keyword => includes lowerText keyword) (flat_map snd entries) = [].
Proof.
  induction entries as [|e entries IH]; [split; reflexivity|].
  cbn [filter flat_map]; rewrite filter_app.
  unfold categoryMatches at 1.
  rewrite <- filter_nonempty_existsb.
  destruct (filter (fun keyword => includes lowerText keyword) (snd e)) as [|k ks];
    cbn [List.length Nat.ltb Nat.leb app].
  - exact IH.
  - split; discriminate.
Qed.

Lemma last_some_default {A : Type} (l : list A) (x : A) :
  last (map Some l) (Some x) <> None.
Proof.
  revert x; induction l as [|y l IH]; intro x; [discriminate|].
  cbn [map]; rewrite last_cons_default; apply IH.
Qed.

Lemma last_some_none {A : Type} (l : list A) :
  last (map Some l) None = None <-> l = [].
Proof.
  destruct l as [|x l]; [split; reflexivity|].
  cbn [map]; rewrite last_cons_default.
  split; [|discriminate].
  intro H; destruct (last_some_default l x H).
Qed.

Lemma last_in_or_default {A : Type} (l : list A) (d x : A) :
  last l d = x -> x = d \/ In x l.
Proof.
  revert d; induction l as [|y l IH]; intros d H; [left; symmetry; exact H|].
  rewrite last_cons_default in H.
  destruct (IH y H) as [->|Hin]; right; [left; reflexivity | right; exact Hin].
Qed.

(** X1: the confidence [analyzeText] returns is
    [Math.min(n * 0.2, 1)] for the number [n] of hazard keywords, over all
    categories, that occur in the lower-cased text, whatever categories
    they belong to; [hazardType] is [null] exactly when that number is 0. *)
Theorem analyzeText_confidence_by_match_count (text : string) :
  exists a, analyzeText (Str text) = Returns a
            /\ confidence a = Math_min (ofNat (hazardMatchCount text) * 0.2)%float 1
            /\ (hazardType a = None <-> hazardMatchCount text = 0).
Proof.
  eexists; split; [reflexivity|]; split; [apply confidence_by_count|].
  unfold analyzeLower; cbn [hazardType].
  rewrite detect_hazardType; cbn [hazardType initialAnalysis].
  rewrite last_some_none.
  unfold hazardMatchCount.
  rewrite length_zero_iff_nil.
  rewrite <- (no_category_no_keyword (toLowerCase text) hazardKeywords).
  split.
  - intro H; apply map_eq_nil in H; exact H.
  - intros ->; reflexivity.
Qed.

(** *** Which keywords are returned *)

(** X2: a string is in the [keywords] array that [analyzeText] returns
    exactly when it is a keyword of a hazard category or an urgency
    keyword and occurs in the lower-cased text. *)
Theorem analyzeText_keywords_sound_complete (text k : string) :
  exists a, analyzeText (Str text) = Returns a
            /\ (In k (keywords a)
                <-> (In k (flat_map snd hazardKeywords) \/ In k urgencyKeywords)
                    /\ includes (toLowerCase text) k = true).
Proof.
  eexists; split; [reflexivity|].
  rewrite keywords_split, in_app_iff, !filter_In; tauto.
Qed.

(** X3: the hazard type [analyzeText] returns, when it is not [null], is
    one of the six categories, and a keyword of that category occurs in
    the lower-cased text; the sentiment is "negative", "positive" or
    "neutral". *)
Theorem analyzeText_result_wellformed (text : string) :
  exists a, analyzeText (Str text) = Returns a
            /\ (forall c, hazardType a = Some c ->
                  exists kws k,
                    In (c, kws) hazardKeywords /\ In k kws
                    /\ includes (toLowerCase text) k = true)
            /\ (sentiment a = "negative"%string
                \/ sentiment a = "positive"%string
                \/ sentiment a = "neutral"%string).
Proof.
  eexists; split; [reflexivity|]; split.
  - intros c Hc.
    unfold analyzeLower in Hc; cbn [hazardType] in Hc.
    rewrite detect_hazardType in Hc; cbn [hazardType initialAnalysis] in Hc.
    apply last_in_or_default in Hc; destruct Hc as [Hc|Hc]; [discriminate|].
    apply in_map_iff in Hc; destruct Hc as (c' & E & Hc); injection E as ->.
    apply in_map_iff in Hc; destruct Hc as ([c' kws] & E & Hc); cbn in E; subst c'.
    apply filter_In in Hc; destruct Hc as [Hin Hm].
    unfold categoryMatches in Hm; cbn [snd] in Hm.
    apply existsb_exists in Hm; destruct Hm as (k & Hk & Hi).
    exists kws, k; repeat split; assumption.
  - unfold analyzeLower; cbn [sentiment].
    rewrite detect_sentiment; cbn [sentiment initialAnalysis].
    destruct (_ <? _); [left; reflexivity|].
    destruct (_ <? _); [right; left | right; right]; reflexivity.
Qed.

(** The text "Flood storm" is typed storm, and "storm" occurs in it. *)
Lemma analyzeText_wellformed_sample :
  exists kws k,
    In ("storm"%string, kws) hazardKeywords /\ In k kws
    /\ includes (toLowerCase "Flood storm") k = true.
Proof.
  destruct (analyzeText_result_wellformed "Flood storm") as (a & Ha & Hc & _).
  apply Hc; injection Ha as <-; vm_compute; reflexivity.
Defined.

(** *** Letter case *)

Lemma lowerUnit_idempotent (c : ascii) : lowerUnit (lowerUnit c) = lowerUnit c.
Proof.
  destruct c as [[] [] [] [] [] [] [] []]; vm_compute; reflexivity.
Qed.

Lemma toLowerCase_idempotent (s : string) :
  toLowerCase (toLowerCase s) = toLowerCase s.
Proof.
  induction s as [|c s IH]; [reflexivity|].
  cbn [toLowerCase]; rewrite lowerUnit_idempotent, IH; reflexivity.
Qed.

Lemma toLowerCase_append (s t : string) :
  toLowerCase (s ++ t) = (toLowerCase s ++ toLowerCase t)%string.
Proof.
  induction s as [|c s IH]; [reflexivity|].
  cbn [append toLowerCase]; rewrite IH; reflexivity.
Qed.

(** X4: [analyzeText] does not tell a text from its lower-cased form:
    both get the same analysis. *)
Theorem analyzeText_ignores_case (text : string) :
  analyzeText (Str (toLowerCase text)) = analyzeText (Str text).
Proof.
  cbn [analyzeText]; rewrite toLowerCase_idempotent; reflexivity.
Qed.

(** *** The gates on confidence and urgency *)

Lemma confidence_gate_table :
  forallb
    (fun n => Bool.eqb (0.3 <? Math_min (ofNat n * 0.2) 1)%float (2 <=? n))
    (seq 0 (S (List.length (flat_map snd hazardKeywords)))) = true.
Proof. vm_compute; reflexivity. Qed.

Lemma urgency_gate_table :
  forallb
    (fun n => Bool.eqb (0.7 <? Math_min (ofNat n * 0.3) 1)%float (3 <=? n))
    (seq 0 (S (List.length urgencyKeywords))) = true.
Proof. vm_compute; reflexivity. Qed.

Lemma confidence_gate (text : string) :
  (0.3 <? confidence (analyzeLower (toLowerCase text)))%float
  = (2 <=? hazardMatchCount text).
Proof.
  rewrite confidence_by_count.
  pose proof confidence_gate_table as H; rewrite forallb_forall in H.
  apply eqb_prop, H, in_seq.
  pose proof (hazardMatchCount_bound text); lia.
Qed.

Lemma urgency_gate (text : string) :
  (0.7 <? urgencyLevel (analyzeLower (toLowerCase text)))%float
  = (3 <=? urgencyMatchCount text).
Proof.
  rewrite urgency_by_count.
  pose proof urgency_gate_table as H; rewrite forallb_forall in H.
  apply eqb_prop, H, in_seq.
  pose proof (urgencyMatchCount_bound text); lia.
Qed.

Lemma processSocialMedia_on_texts (posts : list Post) :
  (forall p, In p posts -> hasText p = true) ->
  processSocialMedia posts
  = Returns
      (filter (fun q => (0.3 <? confidence (analysis q))%float) (map augment posts)).
Proof.
  intro H; unfold processSocialMedia.
  rewrite (mapM_returns _ augment); [reflexivity|].
  intros p Hp; specialize (H p Hp).
  unfold hasText in H.
  unfold calculateRelevance, augment, relevanceOf, analysisOf, textOf.
  destruct (content p); try discriminate H; reflexivity.
Qed.



(** X6: in the report route a truthy description that is no string (a
    number other than 0 and NaN, [true], an array, an object) makes
    [analyzeText] throw a TypeError while the report is built, before the
    early-warning test. For every other description the test holds exactly
    when the severity of the report is the text "critical" or at least
    three urgency keywords occur in the lower-cased description (two give
    urgency 0.6, three give 0.9); a falsy description counts as empty. *)
Theorem earlyWarningTriggered_iff (severity description : Value) :
  earlyWarningTriggered severity description
  = if truthy description && negb (isText description)
    then Throws TypeError
    else Returns (isCritical severity
                  || (3 <=? urgencyMatchCount (descriptionText description))).
Proof.
  unfold earlyWarningTriggered, nlpAnalysis, orEmptyString.
  assert (C : strictEquals severity (Str "critical") = isCritical severity)
    by (destruct severity; reflexivity).
  destruct (truthy description) eqn:T;
    destruct description as [| |[|c s]|x|b|r o];
    try discriminate T;
    cbn [andb negb isText analyzeText bind descriptionText];
    try reflexivity;
    rewrite urgency_gate, C; reflexivity.
Qed.

(** *** When the batch throws *)

Lemma processSocialMediaBatch_on_posts (posts : list Post) :
  processSocialMediaBatch (map Some posts) = processSocialMedia posts.
Proof.
  unfold processSocialMediaBatch, processSocialMedia; f_equal.
  induction posts as [|p posts IH]; [reflexivity|].
  cbn [map mapM]; rewrite IH; reflexivity.
Qed.

Lemma all_text_posts (elements : list (option Post)) :
  forallb isTextPost elements = true ->
  exists posts, elements = map Some posts /\ forall p, In p posts -> hasText p = true.
Proof.
  induction elements as [|e elements IH]; intro H.
  - exists []; split; [reflexivity | intros p []].
  - cbn [forallb] in H; apply andb_prop in H; destruct H as [He Hr].
    destruct (IH Hr) as (posts & -> & Hall).
    destruct e as [p|]; [|discriminate He].
    exists (p :: posts); split; [reflexivity|].
    intros q [<-|Hq]; [exact He | exact (Hall q Hq)].
Qed.

(** X7: [processSocialMedia] throws a TypeError exactly when some element
    of the batch is not a post object with a string for its [content]: an
    element that is no object at all, or a post whose [content] is absent,
    [null], a number, a boolean, an array or an object; this also when
    that post would not pass the confidence gate, and no post is returned
    then. On a batch of post objects the call is [processSocialMedia] as
    embedded above. *)
Theorem processSocialMedia_throws_iff (elements : list (option Post)) :
  (processSocialMediaBatch elements = Throws TypeError
   <-> exists e, In e elements /\ isTextPost e = false)
  /\ (forall posts, processSocialMediaBatch (map Some posts) = processSocialMedia posts).
Proof.
  split; [|exact processSocialMediaBatch_on_posts].
  split.
  - intro H.
    destruct (forallb isTextPost elements) eqn:E.
    + destruct (all_text_posts elements E) as (posts & -> & Hall).
      rewrite processSocialMediaBatch_on_posts in H.
      rewrite (processSocialMedia_on_texts posts Hall) in H.
      discriminate H.
    + apply Bool.not_true_iff_false in E.
      rewrite forallb_forall in E.
      destruct (existsb (fun e => negb (isTextPost e)) elements) eqn:E'.
      * apply existsb_exists in E'; destruct E' as (e & He & Hn).
        exists e; split; [exact He|].
        destruct (isTextPost e); [discriminate Hn | reflexivity].
      * exfalso; apply E; intros e He.
        destruct (isTextPost e) eqn:Ee; [reflexivity|].
        assert (Hex : existsb (fun e => negb (isTextPost e)) elements = true).
        { apply existsb_exists; exists e; split; [exact He|].
          rewrite Ee; reflexivity. }
        congruence.
  - intros (e & He & Hn); unfold processSocialMediaBatch.
    rewrite (mapM_throws _ elements e He); [reflexivity|].
    destruct e as [p|]; [|reflexivity].
    unfold isTextPost, hasText in Hn.
    destruct (content p); try discriminate Hn; reflexivity.
Qed.

(** *** Longer texts *)

Lemma prefix_append (k a b : string) :
  String.prefix k a = true -> String.prefix k (a ++ b) = true.
Proof.
  revert a; induction k as [|c k IH]; intros a H;
    [destruct (a ++ b)%string; reflexivity|].
  destruct a as [|d a]; [discriminate H|].
  cbn [append] in *; simpl in H |- *.
  destruct (ascii_dec c d); [apply IH; exact H | discriminate H].
Qed.

Lemma includes_append_l (a b k : string) :
  includes a k = true -> includes (a ++ b) k = true.
Proof.
  induction a as [|c a IH]; intro H.
  - cbn [includes] in H; rewrite orb_false_r in H.
    destruct k; [|discriminate H].
    destruct b; reflexivity.
  - cbn [includes] in H; apply orb_true_iff in H.
    change (String c a ++ b)%string with (String c (a ++ b)).
    cbn [includes]; apply orb_true_iff.
    destruct H as [H|H].
    + left; exact (prefix_append k (String c a) b H).
    + right; exact (IH H).
Qed.

Lemma includes_append_r (a b k : string) :
  includes b k = true -> includes (a ++ b) k = true.
Proof.
  intro H; induction a as [|c a IH]; [exact H|].
  change (String c a ++ b)%string with (String c (a ++ b)).
  cbn [includes]; rewrite IH; apply orb_true_r.
Qed.

Lemma includes_embedded (before s after k : string) :
  includes s k = true -> includes (before ++ s ++ after) k = true.
Proof.
  intro H; apply includes_append_r, includes_append_l, H.
Qed.

Lemma filter_length_monotone {A : Type} (f g : A -> bool) (l : list A) :
  (forall x, f x = true -> g x = true) ->
  List.length (filter f l) <= List.length (filter g l).
Proof.
  intro H; induction l as [|x l IH]; [apply Nat.le_refl|].
  cbn [filter]; destruct (f x) eqn:E.
  - rewrite (H x E); simpl; lia.
  - destruct (g x); simpl; lia.
Qed.

Lemma confidence_table_monotone :
  forallb
    (fun m =>
       forallb
         (fun n => (Math_min (ofNat n * 0.2) 1 <=? Math_min (ofNat m * 0.2) 1)%float)
         (seq 0 (S m)))
    (seq 0 (S (List.length (flat_map snd hazardKeywords)))) = true.
Proof. vm_compute; reflexivity. Qed.

Lemma urgency_table_monotone :
  forallb
    (fun m =>
       forallb
         (fun n => (Math_min (ofNat n * 0.3) 1 <=? Math_min (ofNat m * 0.3) 1)%float)
         (seq 0 (S m)))
    (seq 0 (S (List.length urgencyKeywords))) = true.
Proof. vm_compute; reflexivity. Qed.

(** X8: a text embedded in a longer text loses nothing: every keyword
    returned for the text is returned for the longer text, and the
    confidence and the urgency level of the longer text are not lower. *)
Theorem analyzeText_monotone_in_text (before text after : string) :
  exists a b,
    analyzeText (Str text) = Returns a
    /\ analyzeText (Str (before ++ text ++ after)) = Returns b
    /\ (forall k, In k (keywords a) -> In k (keywords b))
    /\ (confidence a <=? confidence b)%float = true
    /\ (urgencyLevel a <=? urgencyLevel b)%float = true.
Proof.
  do 2 eexists; split; [reflexivity|]; split; [reflexivity|].
  assert (Hinc : forall k, includes (toLowerCase text) k = true ->
                           includes (toLowerCase (before ++ text ++ after)) k = true).
  { intros k Hk; rewrite !toLowerCase_append; apply includes_embedded, Hk. }
  split; [|split].
  - intros k; rewrite !keywords_split, !in_app_iff, !filter_In.
    intros [[H1 H2]|[H1 H2]]; [left | right]; split;
      try exact H1; apply Hinc, H2.
  - rewrite !confidence_by_count.
    pose proof confidence_table_monotone as H; rewrite forallb_forall in H.
    assert (Hle : hazardMatchCount text
                  <= hazardMatchCount (before ++ text ++ after))
      by (apply filter_length_monotone, Hinc).
    pose proof (hazardMatchCount_bound (before ++ text ++ after)) as Hb.
    specialize (H (hazardMatchCount (before ++ text ++ after))).
    rewrite forallb_forall in H; apply H; apply in_seq; lia.
  - rewrite !urgency_by_count.
    pose proof urgency_table_monotone as H; rewrite forallb_forall in H.
    assert (Hle : urgencyMatchCount text
                  <= urgencyMatchCount (before ++ text ++ after))
      by (apply filter_length_monotone, Hinc).
    pose proof (urgencyMatchCount_bound (before ++ text ++ after)) as Hb.
    specialize (H (urgencyMatchCount (before ++ text ++ after))).
    rewrite forallb_forall in H; apply H; apply in_seq; lia.
Qed.

(** "flood" is returned for "flood", and so for "heavy flood today". *)
Lemma analyzeText_monotone_sample :
  In "flood"%string (keywords (analyzeLower (toLowerCase "heavy flood today"))).
Proof.
  destruct (analyzeText_monotone_in_text "heavy " "flood" " today")
    as (a & b & Ha & Hb & Hk & _).
  injection Ha as <-; injection Hb as <-.
  apply Hk; vm_compute; left; reflexivity.
Defined.

End NLPEngineMore.

(** ** More on the hotspot generator *)

Module HotspotsMore.

Import Js Hotspots HotspotsSpec HotspotsProofs Server Notions NumberFacts.

(** *** The clusters partition the in-window reports *)

Lemma pushReport_sizes (q : Key) (r : Report.t)
    (clusters : list (Key * list Report.t)) :
  clusterSizes (pushReport q r clusters) = S (clusterSizes clusters).
Proof.
  unfold clusterSizes.
  induction clusters as [|[k members] clusters IH]; [reflexivity|].
  cbn [pushReport]; destruct (Key_eqb k q); cbn [map snd].
  - change (list_sum (?x :: ?l)) with (x + list_sum l).
    rewrite length_app; simpl; lia.
  - change (list_sum (?x :: ?l)) with (x + list_sum l).
    rewrite IH; lia.
Qed.

Lemma fold_sizes (l : list Report.t) :
  forall clusters,
    clusterSizes (fold_left addReport l clusters)
    = List.length l + clusterSizes clusters.
Proof.
  induction l as [|r l IH]; intro clusters; [reflexivity|].
  cbn [fold_left]; rewrite IH; unfold addReport.
  rewrite pushReport_sizes; simpl; lia.
Qed.

(** X9: the clusters [generateHotspots] builds partition the in-window
    reports: their keys are pairwise different, none is empty, each holds
    exactly the in-window reports of its cell in arrival order, and their
    sizes add up to the number of in-window reports. *)
Theorem locationClusters_partition (now : float) (reports : list Report.t) :
  NoDup (map fst (locationClusters now reports))
  /\ (forall k members,
        In (k, members) (locationClusters now reports) ->
        members <> [] /\ members = cellMembers now reports k)
  /\ clusterSizes (locationClusters now reports)
     = List.length (filter (inWindow now) reports).
Proof.
  split; [|split].
  - apply fold_NoDup; constructor.
  - intros k members Hin; apply clusters_members in Hin; tauto.
  - unfold locationClusters; rewrite fold_sizes; unfold clusterSizes; simpl; lia.
Qed.

(** The Mumbai cluster of the sample holds the two Mumbai reports. *)
Lemma locationClusters_sample_cluster :
  [mumbaiA; mumbaiB] <> []
  /\ [mumbaiA; mumbaiB]
     = cellMembers sampleNow [mumbaiA; southOfEquator; mumbaiB]
         (PartInt 190, PartInt 728).
Proof.
  apply (proj1 (proj2 (locationClusters_partition sampleNow
                         [mumbaiA; southOfEquator; mumbaiB]))).
  vm_compute; left; reflexivity.
Defined.

(** *** What every hotspot satisfies *)

Lemma NoDup_map_filter {A B : Type} (g : A -> B) (f : A -> bool) (l : list A) :
  NoDup (map g l) -> NoDup (map g (filter f l)).
Proof.
  induction l as [|x l IH]; intro H; [constructor|].
  inversion H as [|? ? Hx Hl]; subst.
  cbn [filter]; destruct (f x); [|exact (IH Hl)].
  cbn [map]; constructor; [|exact (IH Hl)].
  intro Hin; apply Hx.
  apply in_map_iff in Hin; destruct Hin as (y & E & Hy).
  apply filter_In in Hy; apply in_map_iff; exists y; tauto.
Qed.

Lemma sizes_filter_le (f : Key * list Report.t -> bool)
    (clusters : list (Key * list Report.t)) :
  clusterSizes (filter f clusters) <= clusterSizes clusters.
Proof.
  unfold clusterSizes.
  induction clusters as [|c clusters IH]; [apply Nat.le_refl|].
  cbn [filter]; destruct (f c); cbn [map];
    change (list_sum (?x :: ?l)) with (x + list_sum l); lia.
Qed.

Lemma hotspot_ids (l : list (Key * list Report.t)) :
  map Hotspot.id (map makeHotspot l) = map fst l.
Proof.
  induction l as [|[k ms] l IH]; [reflexivity|].
  cbn [map]; rewrite IH; reflexivity.
Qed.

Lemma hotspot_counts (l : list (Key * list Report.t)) :
  list_sum (map Hotspot.reportCount (map makeHotspot l)) = clusterSizes l.
Proof.
  unfold clusterSizes.
  induction l as [|[k ms] l IH]; [reflexivity|].
  cbn [map]; change (list_sum (?x :: ?l)) with (x + list_sum l) at 1 2.
  rewrite IH; reflexivity.
Qed.

(** X10: in every result of [generateHotspots] the hotspot ids are
    pairwise different; each hotspot counts at least two reports, namely
    the in-window reports of its cell; its severity is "critical", "high"
    or "medium", never "low"; and the report counts of all hotspots
    together do not exceed the number of in-window reports. *)
Theorem generateHotspots_wellformed (reports : list Report.t) (now : float) :
  NoDup (map Hotspot.id (generateHotspots reports now))
  /\ (forall h,
        In h (generateHotspots reports now) ->
        2 <= Hotspot.reportCount h
        /\ Hotspot.reportCount h
           = List.length (cellMembers now reports (Hotspot.id h))
        /\ (Hotspot.severity h = "critical"%string
            \/ Hotspot.severity h = "high"%string
            \/ Hotspot.severity h = "medium"%string))
  /\ list_sum (map Hotspot.reportCount (generateHotspots reports now))
     <= List.length (filter (inWindow now) reports).
Proof.
  split; [|split].
  - unfold generateHotspots; rewrite hotspot_ids.
    apply NoDup_map_filter, fold_NoDup; constructor.
  - intros h Hin; apply hotspot_of_cluster in Hin; destruct Hin as [Hlen Hh].
    rewrite Hh; cbn [makeHotspot Hotspot.reportCount Hotspot.severity Hotspot.id].
    repeat split; try exact Hlen.
    unfold severityOf.
    destruct (10 <? _)%float; [left; reflexivity|].
    destruct (6 <? _)%float; [right; left | right; right]; reflexivity.
  - unfold generateHotspots; rewrite hotspot_counts.
    etransitivity; [apply sizes_filter_le|].
    unfold locationClusters; rewrite fold_sizes; unfold clusterSizes; simpl; lia.
Qed.

(** The Mumbai hotspot of the sample counts two reports. *)
Lemma generateHotspots_sample_wellformed :
  2 <= Hotspot.reportCount
         (makeHotspot ((PartInt 190, PartInt 728), [mumbaiA; mumbaiB])).
Proof.
  apply (proj1 (proj2 (generateHotspots_wellformed
                         [mumbaiA; southOfEquator; mumbaiB] sampleNow))).
  vm_compute; left; reflexivity.
Defined.

(** *** Reports outside the window *)

Lemma filter_within {A : Type} (f keep : A -> bool) (l : list A) :
  (forall x, In x l -> f x = true -> keep x = true) ->
  filter f (filter keep l) = filter f l.
Proof.
  induction l as [|x l IH]; intro H; [reflexivity|].
  cbn [filter].
  assert (IH' : filter f (filter keep l) = filter f l)
    by (apply IH; intros y Hy; apply H; right; exact Hy).
  destruct (keep x) eqn:Ek; cbn [filter]; rewrite IH'; [reflexivity|].
  destruct (f x) eqn:Ef; [|reflexivity].
  rewrite (H x (or_introl eq_refl) Ef) in Ek; discriminate Ek.
Qed.



(** *** Hazard types of a hotspot *)

Lemma optString_eqb_eq (a b : option string) :
  optString_eqb a b = true <-> a = b.
Proof.
  destruct a as [x|], b as [y|]; cbn [optString_eqb];
    try (split; [discriminate | discriminate]); try (split; reflexivity).
  rewrite String.eqb_eq; split; [intros ->; reflexivity | intro H; injection H; trivial].
Qed.

Lemma distinct_In (xs : list (option string)) (x : option string) :
  In x (distinct xs) <-> In x xs.
Proof.
  induction xs as [|y xs IH]; [split; trivial|].
  cbn [distinct In]; rewrite filter_In, IH.
  split.
  - intros [H|[H _]]; [left | right]; exact H.
  - intros [H|H]; [left; exact H|].
    destruct (optString_eqb y x) eqn:E.
    + left; apply optString_eqb_eq, E.
    + right; split; [exact H | reflexivity].
Qed.

Lemma distinct_NoDup (xs : list (option string)) : NoDup (distinct xs).
Proof.
  induction xs as [|y xs IH]; [constructor|].
  cbn [distinct]; constructor.
  - intro H; apply filter_In in H; destruct H as [_ H].
    rewrite (proj2 (optString_eqb_eq y y) eq_refl) in H; discriminate H.
  - apply NoDup_filter, IH.
Qed.

(** X12: the [types] of a hotspot hold no value twice, and hold exactly
    the [type] values of the in-window reports of its cell (a missing type
    among them). *)
Theorem generateHotspots_types (reports : list Report.t) (now : float)
    (h : Hotspot.t) (t : option string) :
  In h (generateHotspots reports now) ->
  NoDup (Hotspot.types h)
  /\ (In t (Hotspot.types h)
      <-> exists r, In r (cellMembers now reports (Hotspot.id h))
                    /\ Report.type r = t).
Proof.
  intro Hin; apply hotspot_of_cluster in Hin; destruct Hin as [_ Hh].
  rewrite Hh; cbn [makeHotspot Hotspot.types Hotspot.id].
  split; [apply distinct_NoDup|].
  rewrite distinct_In, in_map_iff.
  split; intros (r & H1 & H2); exists r; split; assumption.
Qed.

(** The Mumbai hotspot of the sample has the types flood and storm. *)
Lemma generateHotspots_sample_types :
  NoDup (Hotspot.types
           (makeHotspot ((PartInt 190, PartInt 728), [mumbaiA; mumbaiB]))).
Proof.
  apply (generateHotspots_types [mumbaiA; southOfEquator; mumbaiB] sampleNow
           (makeHotspot ((PartInt 190, PartInt 728), [mumbaiA; mumbaiB])) None).
  vm_compute; left; reflexivity.
Defined.

(** *** One more report *)

Lemma cellMembers_append (now : float) (reports : list Report.t)
    (r : Report.t) (k : Key) :
  cellMembers now (reports ++ [r]) k
  = cellMembers now reports k
    ++ (if inWindow now r && Key_eqb (cellKey r) k then [r] else []).
Proof.
  unfold cellMembers; rewrite !filter_app; cbn [filter].
  destruct (inWindow now r); cbn [filter andb]; [|reflexivity].
  destruct (Key_eqb (cellKey r) k); reflexivity.
Qed.



(** *** Numerals in [peopleAffected] *)

Lemma isDecimalDigit_digitValue (c : ascii) (d : Z) :
  digitValue 10 c = Some d -> isDecimalDigit c = true.
Proof.
  destruct (isDecimalDigit c) eqn:E; [reflexivity|].
  rewrite (digitValue_not_decimal c E); discriminate.
Qed.

Lemma readDigits_numeral (d : Decimal.uint) (acc : Z) :
  readDigits 10 (Some acc) (DecimalString.NilEmpty.string_of_uint d)
  = Some (numeralValue acc d).
Proof.
  revert acc; induction d; intro acc;
    cbn [DecimalString.NilEmpty.string_of_uint readDigits numeralValue];
    try reflexivity;
    match goal with
    | |- context [digitValue 10 ?c] =>
        change (digitValue 10 c) with (Some (Z.of_nat (nat_of_ascii c) - 48)%Z)
    end; cbv iota; rewrite IHd; reflexivity.
Qed.

Lemma readDigits_numeral_start (d : Decimal.uint) :
  d <> Decimal.Nil ->
  readDigits 10 None (DecimalString.NilEmpty.string_of_uint d)
  = Some (numeralValue 0 d).
Proof.
  destruct d; intro H; try contradiction;
    cbn [DecimalString.NilEmpty.string_of_uint readDigits numeralValue];
    match goal with
    | |- context [digitValue 10 ?c] =>
        change (digitValue 10 c) with (Some (Z.of_nat (nat_of_ascii c) - 48)%Z)
    end; cbv iota; apply readDigits_numeral.
Qed.

Lemma numeral_plain (d : Decimal.uint) :
  d <> Decimal.Nil ->
  let s := DecimalString.NilEmpty.string_of_uint d in
  trimStart s = s /\ readSign s = (false, s) /\ readRadix s = (10%Z, s).
Proof.
  intros H s; subst s.
  destruct d as [|d|d|d|d|d|d|d|d|d|d]; try contradiction;
    (repeat split; try reflexivity);
    destruct d; reflexivity.
Qed.

Lemma parseInt_numeral (d : Decimal.uint) :
  d <> Decimal.Nil ->
  parseInt (DecimalString.NilEmpty.string_of_uint d) = ofZ (numeralValue 0 d).
Proof.
  intro H; unfold parseInt.
  destruct (numeral_plain d H) as (E1 & E2 & E3).
  rewrite E1, E2, E3, (readDigits_numeral_start d H); reflexivity.
Qed.

Lemma numeralValue_of_uint_acc (d : Decimal.uint) (acc : positive) :
  numeralValue (Zpos acc) d = Zpos (Pos.of_uint_acc d acc).
Proof.
  revert acc; induction d; intro acc; cbn [numeralValue Pos.of_uint_acc];
    try reflexivity; rewrite <- IHd; f_equal; lia.
Qed.

Lemma numeralValue_of_uint (d : Decimal.uint) :
  numeralValue 0 d = Z.of_N (Pos.of_uint d).
Proof.
  induction d; cbn [numeralValue Pos.of_uint]; try reflexivity;
    try exact IHd;
    cbn [Z.mul Z.add Z.of_N]; apply numeralValue_of_uint_acc.
Qed.

Lemma to_uint_not_nil (n : N) : N.to_uint n <> Decimal.Nil.
Proof.
  destruct n as [|p]; [discriminate|].
  cbn [N.to_uint]; intro E.
  pose proof (DecimalPos.Unsigned.to_uint_nonnil p) as H; contradiction.
Qed.

(** X14: [parseInt] reads the decimal text of a natural number back as
    that number, so a report whose [peopleAffected] is the numeral of [n]
    contributes [n] (rounded to the nearest number) to [affectedPeople]. *)
Theorem parseInt_decimalText (n : N) :
  parseInt (decimalText n) = ofZ (Z.of_N n)
  /\ forall r, Report.peopleAffected r = Some (decimalText n) ->
               peopleOf r = orElse (ofZ (Z.of_N n)) 0.
Proof.
  assert (E : parseInt (decimalText n) = ofZ (Z.of_N n)).
  { unfold decimalText.
    rewrite (parseInt_numeral _ (to_uint_not_nil n)), numeralValue_of_uint.
    change (Pos.of_uint (N.to_uint n)) with (N.of_uint (N.to_uint n)).
    rewrite DecimalN.Unsigned.of_to; reflexivity. }
  split; [exact E|].
  intros r Hr; unfold peopleOf; rewrite Hr; cbn [toStringOpt]; rewrite E; reflexivity.
Qed.

(** The first Mumbai report, with [peopleAffected] "12", contributes 12. *)
Lemma parseInt_sample_numeral : peopleOf mumbaiA = orElse (ofZ 12) 0.
Proof.
  apply (proj2 (parseInt_decimalText 12)); reflexivity.
Defined.

(** *** Urgency trends *)

Lemma filterLast24h_length (clockAt : nat -> float) (l : list Report.t) :
  forall i, List.length (filterLast24h clockAt i l) <= List.length l.
Proof.
  induction l as [|r l IH]; intro i; [apply Nat.le_refl|].
  cbn [filterLast24h]; destruct (_ <? _)%float; simpl;
    specialize (IH (S i)); lia.
Qed.

Lemma filterLast24h_still (clockAt : nat -> float) (now : float) (l : list Report.t) :
  (forall i, clockAt i = now) ->
  forall i, filterLast24h clockAt i l = filter (inWindow now) l.
Proof.
  intro H; induction l as [|r l IH]; intro i; [reflexivity|].
  cbn [filterLast24h filter]; rewrite (H i), IH; reflexivity.
Qed.

Lemma disjoint_filters_le {A : Type} (f g : A -> bool) (l : list A) :
  (forall x, f x = true -> g x = false) ->
  List.length (filter f l) + List.length (filter g l) <= List.length l.
Proof.
  intro H; induction l as [|x l IH]; [apply Nat.le_refl|].
  cbn [filter]; destruct (f x) eqn:E.
  - rewrite (H x E); simpl; lia.
  - destruct (g x); simpl; lia.
Qed.

(** X15: in the result of [getUrgencyTrends], [critical] and [high]
    together do not exceed [total], and [total] does not exceed the number
    of reports; when the clock stands still during the call, [total] is
    the number of reports that [generateHotspots] distributes over its
    clusters at that time. *)
Theorem getUrgencyTrends_counts (reports : list Report.t) (clockAt : nat -> float) :
  critical (getUrgencyTrends reports clockAt)
  + high (getUrgencyTrends reports clockAt)
  <= total (getUrgencyTrends reports clockAt)
  /\ total (getUrgencyTrends reports clockAt) <= List.length reports
  /\ (forall now,
        (forall i, clockAt i = now) ->
        total (getUrgencyTrends reports clockAt)
        = clusterSizes (locationClusters now reports)).
Proof.
  unfold getUrgencyTrends; cbn [critical high total]; split; [|split].
  - apply disjoint_filters_le; intros r H.
    apply optString_eqb_eq in H; rewrite H; reflexivity.
  - apply filterLast24h_length.
  - intros now H.
    rewrite (filterLast24h_still clockAt now reports H).
    unfold locationClusters; rewrite fold_sizes; unfold clusterSizes; simpl; lia.
Qed.

(** The sample at a standing clock: three reports, all in the window. *)
Lemma getUrgencyTrends_sample :
  total (getUrgencyTrends [mumbaiA; southOfEquator; mumbaiB]
           (fun _ => HotspotsSpec.sampleNow))
  = clusterSizes
      (locationClusters HotspotsSpec.sampleNow [mumbaiA; southOfEquator; mumbaiB]).
Proof.
  apply (proj2 (proj2 (getUrgencyTrends_counts
                         [mumbaiA; southOfEquator; mumbaiB]
                         (fun _ => HotspotsSpec.sampleNow)))).
  intro i; reflexivity.
Defined.

End HotspotsMore.

(** ** The user routes *)

Module ServerMore.

Import Js NLPEngine NLPEngineSpec NLPEngineProofs Server Notions NLPEngineMore.

Lemma strictEquals_refl (v : Value) :
  repeatable v = true -> strictEquals v v = true.
Proof.
  destruct v as [| |s|x|b|r o]; cbn; intro H; try reflexivity.
  - apply String.eqb_refl.
  - unfold is_nan in H; rewrite Bool.negb_involutive in H; exact H.
  - destruct b; reflexivity.
  - discriminate H.
Qed.

Lemma find_append {A : Type} (f : A -> bool) (l : list A) (x : A) :
  find f (l ++ [x])
  = match find f l with
    | Some y => Some y
    | None => if f x then Some x else None
    end.
Proof.
  induction l as [|y l IH]; [reflexivity|].
  cbn [app find]; destruct (f y); [reflexivity | exact IH].
Qed.

(** X16: a login succeeds exactly when some registered user has the
    e-mail of the request, whatever the password of the request and of
    the registration are: the password is never compared. A successful
    login returns a registered user with that e-mail. *)
Theorem login_by_email_only (users : list User) (e p : Value) :
  (success (login users {| email := e; password := p |}) = true
   <-> exists u, In u users /\ strictEquals (email (body u)) e = true)
  /\ (forall u,
        user (login users {| email := e; password := p |}) = Some u ->
        In u users /\ strictEquals (email (body u)) e = true).
Proof.
  unfold login; cbn [success user email].
  split.
  - destruct (find _ users) as [u|] eqn:E; split; try discriminate.
    + intros _; exists u; apply find_some in E; exact E.
    + reflexivity.
    + intros (u & Hu & He).
      pose proof (find_none _ _ E u Hu) as Hn; cbn beta in Hn; congruence.
  - intros u E; apply find_some in E; exact E.
Qed.

(** With Alice registered, a login with her e-mail and another password
    returns her. *)
Lemma login_sample :
  In alice [alice]
  /\ strictEquals (email (body alice)) (Str "alice@example.org") = true.
Proof.
  apply (proj2 (login_by_email_only [alice] (Str "alice@example.org") (Str "guess"))).
  reflexivity.
Defined.

(** X17: registration followed by a login whose e-mail is strictly equal
    ([===]) to the registered one succeeds. The login returns the new
    user only if no earlier user has that e-mail; otherwise it returns
    the same user as before the registration, so that of two users with
    one e-mail the second is never returned. A later request can repeat
    an e-mail that is a text, a boolean, a number other than NaN, [null]
    or absent, and such an e-mail is strictly equal to itself; NaN equals
    nothing, and an array or object is equal only to itself, not to the
    one a later request brings. *)
Theorem register_then_login (users : list User) (b b' : Credentials)
    (now : float) (clock : string) :
  let users' := fst (register users b now clock) in
  let u := snd (register users b now clock) in
  (strictEquals (email b) (email b') = true ->
   success (login users' b') = true
   /\ (success (login users b') = false -> user (login users' b') = Some u)
   /\ (success (login users b') = true ->
       user (login users' b') = user (login users b')))
  /\ (repeatable (email b) = true -> strictEquals (email b) (email b) = true)
  /\ (forall r o r' o', r <> r' -> strictEquals (Obj r o) (Obj r' o') = false)
  /\ strictEquals (Num nan) (Num nan) = false.
Proof.
  cbn zeta; split; [|split; [|split]].
  - intro E; unfold register, login; cbn [fst snd success user].
    rewrite find_append; cbn [body email].
    rewrite E.
    destruct (find _ users) as [v|]; repeat split; intro H;
      try reflexivity; discriminate H.
  - apply strictEquals_refl.
  - intros r o r' o' H; cbn [strictEquals]; apply Nat.eqb_neq; exact H.
  - reflexivity.
Qed.

(** The first registration: a login that repeats the e-mail with another
    password returns the new user. *)
Lemma register_then_login_sample :
  user (login (fst (register [] aliceCredentials 1700000000000 "")) aliceGuess)
  = Some (snd (register [] aliceCredentials 1700000000000 "")).
Proof.
  apply (proj1 (proj2 (proj1 (register_then_login [] aliceCredentials aliceGuess
                                 1700000000000 "") eq_refl))).
  reflexivity.
Defined.

(** *** The social-media route *)



End ServerMore.

(** ** More on the risk model *)

Module OceanMonitorAPIMore.

Import Js OceanMonitorAPI NLPEngineSpec Notions NumberFacts.

Section Risk.

Variable Math_sin Math_cos Math_sqrt : float -> float.
Variable Math_atan2 : float -> float -> float.

Lemma addHazard_unrecognized (loc : Location) (f : RiskFactors) (h : Hazard.t) :
  recognizedType (Hazard.type h) = false -> addHazard Math_sin Math_cos Math_sqrt Math_atan2 loc f h = f.
Proof.
  unfold recognizedType, addHazard; intro H.
  destruct (String.eqb (Hazard.type h) "storm"); [discriminate H|].
  destruct (String.eqb (Hazard.type h) "waves"); [discriminate H|].
  destruct (String.eqb (Hazard.type h) "wind"); [discriminate H|].
  destruct (String.eqb (Hazard.type h) "visibility"); [discriminate H|].
  reflexivity.
Qed.

Lemma fold_recognized (loc : Location) (hazards : list Hazard.t) :
  forall f,
    fold_left (addHazard Math_sin Math_cos Math_sqrt Math_atan2 loc)
      (filter (fun h => recognizedType (Hazard.type h)) hazards) f
    = fold_left (addHazard Math_sin Math_cos Math_sqrt Math_atan2 loc) hazards f.
Proof.
  induction hazards as [|h hazards IH]; intro f; [reflexivity|].
  cbn [filter fold_left].
  destruct (recognizedType (Hazard.type h)) eqn:E.
  - cbn [fold_left]; apply IH.
  - rewrite (addHazard_unrecognized loc f h E); apply IH.
Qed.

(** X19: when no active hazard has one of the types "storm", "waves",
    "wind" and "visibility" (in particular when there is no hazard at
    all), [assessRisk] returns overall risk 0, level "low", all four
    factors 0 and the three recommendations of the lowest tier, for every
    location and timeframe. *)
Theorem assessRisk_no_recognized_hazard (hazards : list Hazard.t)
    (clock : string) (loc : Location) (timeframe : option float) :
  (forall h, In h hazards -> recognizedType (Hazard.type h) = false) ->
  let a :=
    assessRisk Math_sin Math_cos Math_sqrt Math_atan2 hazards clock loc timeframe in
  overallRisk a = 0%float
  /\ riskLevel a = "low"%string
  /\ factors a = {| storm := 0; waves := 0; wind := 0; visibility := 0 |}
  /\ recommendations a
     = [ "Normal marine activities permitted";
         "Standard safety precautions advised";
         "Monitor routine weather updates" ]%string.
Proof.
  intro H; cbn zeta; unfold assessRisk.
  rewrite <- fold_recognized.
  assert (E : filter (fun h => recognizedType (Hazard.type h)) hazards = []).
  { induction hazards as [|h hazards IH]; [reflexivity|].
    cbn [filter]; rewrite (H h (or_introl eq_refl)).
    apply IH; intros h' Hh'; apply H; right; exact Hh'. }
  rewrite E; repeat split.
Qed.

(** X20: hazards whose type is none of "storm", "waves", "wind" and
    "visibility" are ignored without notice: [assessRisk] returns what it
    returns with those hazards left out. *)
Theorem assessRisk_ignores_unrecognized (hazards : list Hazard.t)
    (clock : string) (loc : Location) (timeframe : option float) :
  assessRisk Math_sin Math_cos Math_sqrt Math_atan2
    (filter (fun h => recognizedType (Hazard.type h)) hazards) clock loc timeframe
  = assessRisk Math_sin Math_cos Math_sqrt Math_atan2 hazards clock loc timeframe.
Proof.
  unfold assessRisk; rewrite fold_recognized; reflexivity.
Qed.

(** X21: the risk level and the recommendations of an assessment always
    belong to the same tier. *)
Theorem assessRisk_level_matches_recommendations (hazards : list Hazard.t)
    (clock : string) (loc : Location) (timeframe : option float) :
  let a :=
    assessRisk Math_sin Math_cos Math_sqrt Math_atan2 hazards clock loc timeframe in
  (riskLevel a = "high"%string
   /\ hd_error (recommendations a) = Some "Avoid all marine activities"%string)
  \/ (riskLevel a = "medium"%string
      /\ hd_error (recommendations a)
         = Some "Exercise caution in marine activities"%string)
  \/ (riskLevel a = "low"%string
      /\ hd_error (recommendations a)
         = Some "Normal marine activities permitted"%string).
Proof.
  cbn zeta; unfold assessRisk; cbn [riskLevel recommendations].
  unfold generateRecommendations.
  destruct (0.7 <? _)%float; [left; split; reflexivity|].
  destruct (0.4 <? _)%float; [right; left | right; right]; split; reflexivity.
Qed.

(** *** Bounds *)

Lemma addHazard_notNegative (loc : Location) (f : RiskFactors) (h : Hazard.t) :
  factorsNotNegative f -> factorsNotNegative (addHazard Math_sin Math_cos Math_sqrt Math_atan2 loc f h).
Proof.
  intros (Hs & Hw & Hi & Hv); unfold addHazard.
  set (proximity := Math_max 0 _).
  assert (Hp : notNegative proximity = true) by apply Math_max_zero_notNegative.
  destruct (String.eqb (Hazard.type h) "storm");
    [|destruct (String.eqb (Hazard.type h) "waves");
      [|destruct (String.eqb (Hazard.type h) "wind");
        [|destruct (String.eqb (Hazard.type h) "visibility")]]];
    unfold factorsNotNegative; cbn [storm waves wind visibility];
    repeat split; try assumption;
    apply add_notNegative; try assumption;
    apply mul_notNegative; try assumption;
    try destruct (String.eqb (Hazard.severity h) "high"); reflexivity.
Qed.

Lemma fold_notNegative (loc : Location) (hazards : list Hazard.t) :
  forall f, factorsNotNegative f ->
            factorsNotNegative (fold_left (addHazard Math_sin Math_cos Math_sqrt Math_atan2 loc) hazards f).
Proof.
  induction hazards as [|h hazards IH]; intros f H; [exact H|].
  cbn [fold_left]; apply IH, addHazard_notNegative, H.
Qed.

(** X22: for every list of hazards and every location, none of the four
    factors of an assessment is negative, and the overall risk is NaN or
    lies in [0, 1]. *)
Theorem assessRisk_bounds (hazards : list Hazard.t)
    (clock : string) (loc : Location) (timeframe : option float) :
  let a :=
    assessRisk Math_sin Math_cos Math_sqrt Math_atan2 hazards clock loc timeframe in
  notNegative (storm (factors a)) = true
  /\ notNegative (waves (factors a)) = true
  /\ notNegative (wind (factors a)) = true
  /\ notNegative (visibility (factors a)) = true
  /\ (is_nan (overallRisk a) = true \/ inUnitInterval (overallRisk a) = true).
Proof.
  cbn zeta; unfold assessRisk; cbn [factors overallRisk].
  pose proof (fold_notNegative loc hazards
                {| storm := 0; waves := 0; wind := 0; visibility := 0 |}) as H.
  destruct H as (Hs & Hw & Hi & Hv); [repeat split; reflexivity|].
  repeat split; try assumption.
  apply Math_min_one_unit; cbn [fold_left].
  repeat apply add_notNegative; try assumption; reflexivity.
Qed.

(** *** Hazards from the weather readings *)

Variable toFixed1 : float -> string.

Lemma fold_wind_unchanged (loc : Location) (hazards : list Hazard.t) :
  (forall h, In h hazards -> String.eqb (Hazard.type h) "wind" = false) ->
  forall f,
    wind (fold_left (addHazard Math_sin Math_cos Math_sqrt Math_atan2 loc) hazards f)
    = wind f.
Proof.
  induction hazards as [|h hazards IH]; intros H f; [reflexivity|].
  cbn [fold_left]; rewrite IH by (intros h' Hh'; apply H; right; exact Hh').
  unfold addHazard; rewrite (H h (or_introl eq_refl)).
  destruct (String.eqb (Hazard.type h) "storm"); [reflexivity|].
  destruct (String.eqb (Hazard.type h) "waves"); [reflexivity|].
  destruct (String.eqb (Hazard.type h) "visibility"); reflexivity.
Qed.

Lemma processWeatherData_types (current : Current.t)
    (clockStorm clockWaves clockVisibility : string) (h : Hazard.t) :
  In h (processWeatherData toFixed1 current clockStorm clockWaves clockVisibility) ->
  (Hazard.type h = "storm"%string \/ Hazard.type h = "waves"%string
   \/ Hazard.type h = "visibility"%string)
  /\ (Hazard.severity h = "high"%string \/ Hazard.severity h = "medium"%string).
Proof.
  unfold processWeatherData.
  destruct (50 <? Current.windSpeed current)%float;
    destruct (70 <? Current.windSpeed current)%float;
    destruct (3 <? Current.waveHeight current)%float;
    destruct (4 <? Current.waveHeight current)%float;
    destruct (Current.visibility current <? 3)%float;
    cbn [app In]; intro H;
    repeat (destruct H as [<-|H]; [cbn; tauto|]); destruct H.
Qed.

(** X23: [processWeatherData] raises at most three hazards, of the types
    "storm", "waves" and "visibility" and of severity "high" or "medium";
    it never raises a hazard of type "wind", so the wind factor of an
    assessment over its hazards is always 0. *)
Theorem processWeatherData_hazards (current : Current.t)
    (clockStorm clockWaves clockVisibility clock : string)
    (loc : Location) (timeframe : option float) :
  let hazards :=
    processWeatherData toFixed1 current clockStorm clockWaves clockVisibility in
  List.length hazards <= 3
  /\ (forall h, In h hazards ->
        (Hazard.type h = "storm"%string \/ Hazard.type h = "waves"%string
         \/ Hazard.type h = "visibility"%string)
        /\ (Hazard.severity h = "high"%string
            \/ Hazard.severity h = "medium"%string))
  /\ wind (factors
             (assessRisk Math_sin Math_cos Math_sqrt Math_atan2
                hazards clock loc timeframe))
     = 0%float.
Proof.
  cbn zeta; split; [|split].
  - unfold processWeatherData.
    destruct (50 <? _)%float; destruct (3 <? _)%float;
      destruct (_ <? 3)%float; cbn [app List.length]; lia.
  - intro h; apply processWeatherData_types.
  - unfold assessRisk; cbn [factors].
    rewrite fold_wind_unchanged; [reflexivity|].
    intros h Hh; apply processWeatherData_types in Hh.
    destruct Hh as [[E|[E|E]] _]; rewrite E; reflexivity.
Qed.

End Risk.

(** The storm readings raise a storm hazard first. *)
Lemma processWeatherData_sample :
  exists h,
    hd_error (processWeatherData (fun _ => "80.0"%string) stormReadings "" "" "")
    = Some h
    /\ (Hazard.type h = "storm"%string \/ Hazard.type h = "waves"%string
        \/ Hazard.type h = "visibility"%string)
    /\ (Hazard.severity h = "high"%string \/ Hazard.severity h = "medium"%string).
Proof.
  eexists; split; [reflexivity|].
  apply (proj1 (proj2 (processWeatherData_hazards
                         (fun x => x) (fun x => x) PrimFloat.sqrt (fun x _ => x)
                         (fun _ => "80.0"%string) stormReadings "" "" "" ""
                         {| lat := 19.0; lng := 72.8 |} None))).
  vm_compute; left; reflexivity.
Defined.

(** A fog hazard alone leaves the risk at 0. *)
Lemma assessRisk_fog_only :
  overallRisk
    (assessRisk (fun x => x) (fun x => x) PrimFloat.sqrt (fun x _ => x)
       [fogHazard] "2023-11-14T22:13:20.000Z" {| lat := 19.0; lng := 72.8 |} None)
  = 0%float.
Proof.
  apply (assessRisk_no_recognized_hazard (fun x => x) (fun x => x)
           PrimFloat.sqrt (fun x _ => x) [fogHazard]).
  intros h [<-|[]]; reflexivity.
Defined.

End OceanMonitorAPIMore.
